(** * NPS explorer: recreation discovery and visit planning

    A shallow embedding of the decision logic of the tool handlers
    ([planParkVisit], [findNearbyRecreation], [findParks]) and of the
    Nominatim geocoding service, with the properties the specification
    states about them.

    Conventions of the embedding.
    - A JavaScript [number] is an IEEE 754 binary64 value: Rocq's primitive
      [float].  Comparisons are the IEEE ones, so every comparison with NaN
      is false, as in JavaScript.
    - [undefined] for an optional field is [None]; where the source compares
      it as a number it is first converted by [ToNumber] (NaN).
    - The pagination numbers [limit] and [start], and the scores, which are
      sums of small integers, are integers ([Z]).
    - A string is a [string] of bytes (the UTF-8 encoding of the JavaScript
      string); [toLowerCase] maps the ASCII letters and leaves every other
      byte alone.
    - An [async] handler is a computation in the [Task] monad: it issues
      provider calls in program order, records each one in a call log, and
      either returns a value or throws. *)

From Stdlib Require Import ZArith List String Ascii Bool Lia Floats.
From Stdlib Require Import Sorting.Sorted Sorting.Permutation.
Import ListNotations.

Local Open Scope string_scope.
Local Open Scope Z_scope.

(* ===================================================================== *)
(** ** JavaScript numbers *)
(* ===================================================================== *)

Module JSNumber.

Abbreviation number := float.

(** [a < b], [a <= b], [a >= b] on numbers. *)
Definition lt (a b : number) : bool := PrimFloat.ltb a b.
Definition le (a b : number) : bool := PrimFloat.leb a b.
Definition ge (a b : number) : bool := PrimFloat.leb b a.

(** [Number.isNaN(x)]: NaN is the one number that is not equal to
    itself. *)
Definition isNaN (x : number) : bool := negb (PrimFloat.eqb x x).

(** [ToNumber] of a possibly-undefined number. *)
Definition ToNumber (v : option number) : number :=
  match v with
  | Some x => x
  | None => PrimFloat.nan
  end.

End JSNumber.

(* ===================================================================== *)
(** ** JavaScript strings *)
(* ===================================================================== *)

Module JSString.

Definition is_upper (c : ascii) : bool :=
  let n := N_of_ascii c in (65 <=? n)%N && (n <=? 90)%N.

Definition lower_char (c : ascii) : ascii :=
  if is_upper c then ascii_of_N (N_of_ascii c + 32) else c.

(** [s.toLowerCase()] *)
Fixpoint toLowerCase (s : string) : string :=
  match s with
  | EmptyString => EmptyString
  | String c s' => String (lower_char c) (toLowerCase s')
  end.

(** [s.startsWith(p)] *)
Fixpoint startsWith (s p : string) {struct p} : bool :=
  match p, s with
  | EmptyString, _ => true
  | String _ _, EmptyString => false
  | String a p', String b s' => Ascii.eqb a b && startsWith s' p'
  end.

(** [s.includes(sub)] *)
Fixpoint includes (s sub : string) : bool :=
  startsWith s sub ||
  match s with
  | EmptyString => false
  | String _ s' => includes s' sub
  end.

(** A string is truthy when it is not empty. *)
Definition truthy (s : string) : bool :=
  match s with
  | EmptyString => false
  | String _ _ => true
  end.

(** [sub] occurs in [s] up to the case of ASCII letters: some substring
    of [s] has the same lower-case form as [sub]. *)
Definition contains_ci (s sub : string) : Prop :=
  exists pre mid post,
    s = pre ++ mid ++ post /\ toLowerCase mid = toLowerCase sub.

End JSString.

(* ===================================================================== *)
(** ** Provider records *)
(* ===================================================================== *)

(** Modelled from the spec: the [ForecastDay] record of the weather
    service, whose declaration is not among the sources (section 3: date,
    minTempF, maxTempF, condition and an optional chanceOfRain).  These are
    the fields the handlers read. *)
Record ForecastDay := {
  date : string;
  minTempF : JSNumber.number;
  maxTempF : JSNumber.number;
  condition : string;
  chanceOfRain : option JSNumber.number
}.

(** Modelled from the spec: the [Alert] record of the parks service, whose
    declaration is not among the sources, with the fields the handlers
    read. *)
Record Alert := {
  title : string;
  category : string;
  alert_description : string
}.

(* ===================================================================== *)
(** ** planParkVisit: the weather scoring *)
(* ===================================================================== *)

Module Scorer.
Import JSNumber JSString.

Definition goodConditions : list string :=
  ["sunny"; "clear"; "partly cloudy"].

(** The body of the [forEach] callback up to [goodWeatherDays.push], in
    its three steps; each takes the running [score] and returns it
    updated. *)

(** "Prefer temperatures between 65-80 F" *)
Definition temperature_step (day : ForecastDay) (score : Z) : Z :=
  let avgTemp := ((maxTempF day + minTempF day) / 2)%float in
  if ge avgTemp 65 && le avgTemp 80 then score + 3
  else if ge avgTemp 50 && le avgTemp 85 then score + 2
  else score + 1.

(** "Prefer low chance of rain" *)
Definition rain_step (day : ForecastDay) (score : Z) : Z :=
  let rain := ToNumber (chanceOfRain day) in
  if lt rain 20 then score + 3
  else if lt rain 40 then score + 2
  else if lt rain 60 then score + 1
  else score.

(** "Prefer good conditions" *)
Definition condition_step (day : ForecastDay) (score : Z) : Z :=
  if existsb (fun c => includes (toLowerCase (condition day)) c)
             goodConditions
  then score + 2
  else score.

Definition score_day (day : ForecastDay) : Z :=
  let score := 0 in
  let score := temperature_step day score in
  let score := rain_step day score in
  let score := condition_step day score in
  score.

(** The three contributions, as the specification names them. *)
Definition avg_temp (day : ForecastDay) : number :=
  ((minTempF day + maxTempF day) / 2)%float.

Definition temp_points (day : ForecastDay) : Z :=
  if le 65 (avg_temp day) && le (avg_temp day) 80 then 3
  else if le 50 (avg_temp day) && le (avg_temp day) 85 then 2
  else 1.

(** The rain bucket of a rain chance that is a number. *)
Definition rain_bucket (r : number) : Z :=
  if lt r 20 then 3
  else if lt r 40 then 2
  else if lt r 60 then 1
  else 0.

(** The rain contribution of a day: the bucket of its rain chance, and
    nothing when no bucket's comparison holds. *)
Definition rain_points (day : ForecastDay) : Z :=
  match chanceOfRain day with
  | Some r => rain_bucket r
  | None => 0
  end.

(** The rain contribution under the reading "an absent rain chance is
    treated as 0". *)
Definition rain_points_absent_as_zero (day : ForecastDay) : Z :=
  match chanceOfRain day with
  | Some r => rain_bucket r
  | None => rain_bucket 0
  end.

Definition good_condition (day : ForecastDay) : Prop :=
  contains_ci (condition day) "sunny" \/
  contains_ci (condition day) "clear" \/
  contains_ci (condition day) "partly cloudy".

(** What a score must be for a day: between 1 and 8, and the sum of the
    temperature points, the rain points and 2 or 0 for the condition. *)
Definition score_spec (day : ForecastDay) (s : Z) : Prop :=
  1 <= s <= 8 /\
  exists c,
    ((c = 2 /\ good_condition day) \/ (c = 0 /\ ~ good_condition day)) /\
    s = temp_points day + rain_points day + c.

End Scorer.


(* ===================================================================== *)
(** ** JavaScript arrays *)
(* ===================================================================== *)

Module JSArray.

Section Ops.
Context {A : Type}.

Definition length (l : list A) : Z := Z.of_nat (List.length l).

(** [RelativeIndex]: how [Array.prototype.slice] reads an integer
    argument against the array's length: a negative one counts from the
    end, and both are clamped to [0, len]. *)
Definition relative_index (len i : Z) : Z :=
  if i <? 0 then Z.max (len + i) 0 else Z.min i len.

(** [l.slice(start, end)] for integer [start] and [end]. *)
Definition slice (l : list A) (start end_ : Z) : list A :=
  let len := length l in
  let k := relative_index len start in
  let final := relative_index len end_ in
  firstn (Z.to_nat (Z.max (final - k) 0)) (skipn (Z.to_nat k) l).

(** [l.sort(cmp)].  ECMAScript requires the sort to be stable and, for
    a consistent comparator, to leave [cmp a b <= 0] between neighbours;
    the order of the result is then unique, and this insertion sort
    computes it: each element is placed before the first one it does
    not have to follow. *)
Fixpoint sort_insert (cmp : A -> A -> Z) (x : A) (l : list A) : list A :=
  match l with
  | [] => [x]
  | y :: l' =>
      if cmp x y <=? 0 then x :: y :: l' else y :: sort_insert cmp x l'
  end.

Definition sort (cmp : A -> A -> Z) (l : list A) : list A :=
  fold_right (sort_insert cmp) [] l.

(** [l.some(p)] *)
Definition some (p : A -> bool) (l : list A) : bool := existsb p l.

End Ops.

End JSArray.

(* ===================================================================== *)
(** ** Provider records, continued *)
(* ===================================================================== *)

(** Modelled from the spec: the [Park], [Facility] and [Trail] records of
    the parks and recreation services, whose declarations are not among the
    sources (section 3).  Each is given with fields the handlers read; an
    optional field is an [option]. *)
Record Park := {
  parkCode : option string;
  park_name : string;
  park_description : option string;
  park_url : option string
}.

Record Facility := {
  facilityName : string;
  facilityDescription : option string;
  facilityPhone : option string;
  facilityReservationUrl : option string
}.

(** What a trail's [trailUse] field holds: nothing, an array of strings, or
    some other value (written as the string it prints as). *)
Inductive TrailUse :=
| UseAbsent
| UseArray (uses : list string)
| UseNotArray (v : string).

Record Trail := {
  trail_name : string;
  trail_description : option string;
  trailUse : TrailUse
}.

(** One element of Nominatim's JSON answer ([any] in the source): the
    three fields [getCoordinates] reads, the coordinates being strings. *)
Record NominatimPlace := {
  lat : string;
  lon : string;
  display_name : string
}.

Record GeocodingResult := {
  latitude : JSNumber.number;
  longitude : JSNumber.number;
  displayName : string
}.

(* ===================================================================== *)
(** ** Asynchronous handlers *)
(* ===================================================================== *)

(** A thrown [Error]; the handlers read only its [message]. *)
Record JSError := { message : string }.

(** How a call ends: it returns a value or throws. *)
Inductive Outcome (A : Type) :=
| Returned (a : A)
| Thrown (e : JSError).
Arguments Returned {A} a.
Arguments Thrown {A} e.

(** The provider calls a handler can issue, with their arguments. *)
Inductive Call :=
| HttpGet (url : string) (headers : list (string * string))
| GetParkById (code : string)
| GetAlertsByPark (code : string)
| SearchParks (q stateCode : option string) (limit start : Z)
| GetParksByActivity (activity : string)
| GetParks (limit start : Z)
| SearchParksByLocation (latitude longitude : JSNumber.number) (maxCount : Z)
| GetFacilitiesByLocation (latitude longitude radius : JSNumber.number)
| GetTrailsByPark (code : string)
| Get7DayForecastByLocation (location : string)
| GetDetailedForecast (location : string).

(** The radius of a facilities-by-location call, and whether a call is a
    trails call. *)
Definition facilities_radius (c : Call) : option JSNumber.number :=
  match c with
  | GetFacilitiesByLocation _ _ radius => Some radius
  | _ => None
  end.

Definition is_trails_call (c : Call) : bool :=
  match c with
  | GetTrailsByPark _ => true
  | _ => false
  end.

Module Task.

(** A computation that appends the calls it issues to the log it is
    given, and returns or throws. *)
Definition Task (A : Type) : Type := list Call -> Outcome A * list Call.

Definition ret {A} (a : A) : Task A := fun log => (Returned a, log).

Definition bind {A B} (m : Task A) (k : A -> Task B) : Task B :=
  fun log =>
    match m log with
    | (Returned a, log') => k a log'
    | (Thrown e, log') => (Thrown e, log')
    end.

(** [try { body } catch (error) { handler }] *)
Definition try_catch {A} (body : Task A) (handler : JSError -> Task A)
  : Task A :=
  fun log =>
    match body log with
    | (Returned a, log') => (Returned a, log')
    | (Thrown e, log') => handler e log'
    end.

(** [await provider.method(args)]: the call is logged, and its outcome is
    the computation's. *)
Definition await {A} (c : Call) (o : Outcome A) : Task A :=
  fun log => (o, (log ++ [c])%list).

(** The handler run from an empty log. *)
Definition run {A} (m : Task A) : Outcome A * list Call := m [].

Definition result {A} (m : Task A) : Outcome A := fst (run m).
Definition calls {A} (m : Task A) : list Call := snd (run m).

End Task.

Declare Scope task_scope.
Delimit Scope task_scope with task.
Notation "x <- m ;; k" := (Task.bind m (fun x => k))
  (at level 61, m at next level, right associativity) : task_scope.

(** Modelled from the spec: the services the handlers are registered with
    (section 6), whose classes are not among the sources.  Only the methods
    the handlers call are listed, and a method is given by the outcome of
    calling it on its arguments: the value it resolves to, or the error it
    throws. *)
Record HttpClient := {
  http_get : string -> list (string * string) ->
             Outcome (option (list NominatimPlace))
}.

Record NpsApiService := {
  getParkById : string -> Outcome (option Park);
  getAlertsByPark : string -> Outcome (list Alert);
  searchParks : option string -> option string -> Z -> Z ->
                Outcome (list Park);
  getParksByActivity : string -> Outcome (list Park);
  getParks : Z -> Z -> Outcome (list Park);
  searchParksByLocation : JSNumber.number -> JSNumber.number -> Z ->
                          Outcome (list Park)
}.

Record RecGovService := {
  getFacilitiesByLocation :
    JSNumber.number -> JSNumber.number -> JSNumber.number ->
    Outcome (list Facility);
  getTrailsByPark : string -> Outcome (list Trail)
}.

Record WeatherApiService := {
  get7DayForecastByLocation : string -> Outcome (option (list ForecastDay));
  getDetailedForecast : string -> Outcome (option (list ForecastDay))
}.

(* ===================================================================== *)
(** ** Global functions of the JavaScript runtime *)
(* ===================================================================== *)

Module JSGlobal.
Import JSNumber JSString.

Definition code (c : ascii) : N := N_of_ascii c.

Definition is_digit (c : ascii) : bool :=
  (48 <=? code c)%N && (code c <=? 57)%N.

Definition is_alpha (c : ascii) : bool :=
  ((65 <=? code c)%N && (code c <=? 90)%N) ||
  ((97 <=? code c)%N && (code c <=? 122)%N).

(** The characters [encodeURIComponent] leaves as they are:
    letters, digits and [- _ . ! ~ * ' ( )]. *)
Definition is_unreserved (c : ascii) : bool :=
  is_alpha c || is_digit c ||
  existsb (N.eqb (code c)) [45; 95; 46; 33; 126; 42; 39; 40; 41]%N.

Definition hex_digit (n : N) : ascii :=
  if (n <? 10)%N then ascii_of_N (48 + n) else ascii_of_N (55 + n).

(** [encodeURIComponent(s)]: every other byte of the UTF-8 encoding
    becomes [%XX]. *)
Fixpoint encodeURIComponent (s : string) : string :=
  match s with
  | EmptyString => EmptyString
  | String c s' =>
      if is_unreserved c then String c (encodeURIComponent s')
      else String "%" (String (hex_digit (code c / 16))
             (String (hex_digit (code c mod 16)) (encodeURIComponent s')))
  end.

(** The decimal number [(-1)^neg * m * 10^e10], for [0 <= m], rounded to
    the nearest binary64 value, ties to even.  For a negative exponent
    the quotient is computed to more than 64 bits with a sticky bit, which
    is enough for the rounding to be that of the exact quotient. *)
Definition of_decimal (neg : bool) (m e10 : Z) : number :=
  let signed (v : Z) := if neg then - v else v in
  if m =? 0 then (if neg then neg_zero else zero)
  else if 0 <=? e10 then
    SF2Prim (binary_normalize prec emax (signed (m * 10 ^ e10)) 0 false)
  else
    let d := 10 ^ (- e10) in
    let s := 64 + Z.log2 d in
    let n := m * 2 ^ s in
    let sticky := if n mod d =? 0 then 0 else 1 in
    SF2Prim (binary_normalize prec emax (signed (2 * (n / d) + sticky))
               (- s - 1) false).

(** White space that [parseFloat] skips: tab, line feed, vertical tab,
    form feed, carriage return and space (the white space outside ASCII is
    left out). *)
Definition is_white_space (c : ascii) : bool :=
  existsb (N.eqb (code c)) [9; 10; 11; 12; 13; 32]%N.

Fixpoint trimStart (s : string) : string :=
  match s with
  | EmptyString => EmptyString
  | String c s' => if is_white_space c then trimStart s' else s
  end.

Definition read_sign (s : string) : bool * string :=
  match s with
  | String "-" s' => (true, s')
  | String "+" s' => (false, s')
  | _ => (false, s)
  end.

(** Reads the longest run of decimal digits at the head of [s], on top of
    the value [acc] and the count [n] read so far. *)
Fixpoint read_digits (acc n : Z) (s : string) : Z * Z * string :=
  match s with
  | EmptyString => (acc, n, s)
  | String c s' =>
      if is_digit c
      then read_digits (10 * acc + Z.of_N (code c - 48)) (n + 1) s'
      else (acc, n, s)
  end.

(** The value of an exponent part [e], [e+] or [e-] followed by digits at
    the head of [s]; 0 when there is none. *)
Definition read_exponent (s : string) : Z :=
  match s with
  | String c s' =>
      if Ascii.eqb c "e" || Ascii.eqb c "E" then
        let (neg, s'') := read_sign s' in
        let '(v, n, _) := read_digits 0 0 s'' in
        if n =? 0 then 0 else if neg then - v else v
      else 0
  | EmptyString => 0
  end.

(** [parseFloat(input)]: the value of the longest prefix of the trimmed
    input that is a decimal literal, and NaN when there is none. *)
Definition parseFloat (input : string) : number :=
  let (neg, s) := read_sign (trimStart input) in
  if startsWith s "Infinity" then (if neg then neg_infinity else infinity)
  else
    let '(ip, ni, s1) := read_digits 0 0 s in
    let '(m, nf, s2) :=
      match s1 with
      | String "." s1' => read_digits ip 0 s1'
      | _ => (ip, 0, s1)
      end in
    if ni + nf =? 0 then nan
    else of_decimal neg m (read_exponent s2 - nf).

End JSGlobal.

(* ===================================================================== *)
(** ** NominatimGeocodingService *)
(* ===================================================================== *)

Module NominatimGeocodingService.
Import JSGlobal.
Local Open Scope task_scope.

Definition baseUrl : string := "https://nominatim.openstreetmap.org".

Definition headers : list (string * string) :=
  [("User-Agent", "NationalParksInfo/1.0"); ("Accept", "application/json")].

Definition search_url (locationQuery : string) : string :=
  (baseUrl ++ "/search?q=" ++ encodeURIComponent locationQuery
     ++ "&format=json&limit=1")%string.

(** [getCoordinates]: the whole body is inside [try], and the [catch]
    returns [null]. *)
Definition getCoordinates (http : HttpClient) (locationQuery : string)
  : Task.Task (option GeocodingResult) :=
  Task.try_catch
    (let url := search_url locationQuery in
     response <- Task.await (HttpGet url headers) (http_get http url headers) ;;
     match response with
     | Some (result :: _) =>
         Task.ret (Some {| latitude := parseFloat (lat result);
                           longitude := parseFloat (lon result);
                           displayName := display_name result |})
     | _ => Task.ret None
     end)
    (fun error => Task.ret None).

(** What [getCoordinates] makes of each outcome of the HTTP call. *)
Definition geocoded (o : Outcome (option (list NominatimPlace)))
  : option GeocodingResult :=
  match o with
  | Returned (Some (result :: _)) =>
      Some {| latitude := parseFloat (lat result);
              longitude := parseFloat (lon result);
              displayName := display_name result |}
  | _ => None
  end.

End NominatimGeocodingService.

(* ===================================================================== *)
(** ** Tool responses *)
(* ===================================================================== *)

(** A handler answers with one text.  A fixed or one-line text is kept as
    the string it is; a report is kept as the values its markdown is
    rendered from, which is as far as the decision logic goes. *)
Inductive ToolResponse (R : Type) :=
| Message (text : string)
| Report (r : R).
Arguments Message {R} text.
Arguments Report {R} r.

(** The values interpolated into a scored day's [conditions] text. *)
Record Conditions := {
  c_minTempF : JSNumber.number;
  c_maxTempF : JSNumber.number;
  c_condition : string;
  c_chanceOfRain : option JSNumber.number
}.

(** An element of [goodWeatherDays]. *)
Record ScoredDay := {
  sd_date : string;
  score : Z;
  conditions : Conditions
}.

(* ===================================================================== *)
(** ** planParkVisit *)
(* ===================================================================== *)

Module PlanningTools.
Import JSNumber JSString.
Local Open Scope task_scope.

(** What the [forEach] callback pushes for a day. *)
Definition scored_day (day : ForecastDay) : ScoredDay :=
  {| sd_date := date day;
     score := Scorer.score_day day;
     conditions := {| c_minTempF := minTempF day;
                      c_maxTempF := maxTempF day;
                      c_condition := condition day;
                      c_chanceOfRain := chanceOfRain day |} |}.

(** [goodWeatherDays] before it is sorted: one entry per day of a
    non-empty detailed forecast, in the forecast's order. *)
Definition scoreDays (detailedForecast : option (list ForecastDay))
  : list ScoredDay :=
  match detailedForecast with
  | Some days =>
      if 0 <? JSArray.length days then map scored_day days else []
  | None => []
  end.

(** The comparator [(a, b) => b.score - a.score]. *)
Definition by_score (a b : ScoredDay) : Z := score b - score a.

(** [goodWeatherDays] after [goodWeatherDays.sort(...)]. *)
Definition rankDays (detailedForecast : option (list ForecastDay))
  : list ScoredDay :=
  JSArray.sort by_score (scoreDays detailedForecast).

(** The predicate of [alerts.filter] that selects [closureAlerts]. *)
Definition is_closure_alert (a : Alert) : bool :=
  includes (toLowerCase (title a)) "closure" ||
  includes (toLowerCase (title a)) "closed" ||
  includes (toLowerCase (category a)) "closure".

Definition closureAlerts (alerts : list Alert) : list Alert :=
  filter is_closure_alert alerts.

(** What the visit plan is rendered from.  The trip section compares the
    forecast's dates with the two given ones; it is kept as the pair. *)
Record VisitPlan := {
  vp_park : Park;
  vp_closureAlerts : list Alert;
  vp_forecast : option (list ForecastDay);
  vp_recommended : list ScoredDay;
  vp_trip : option string * option string
}.

Definition planParkVisit (npsService : NpsApiService)
    (weatherService : WeatherApiService)
    (parkCode : string) (startDate endDate : option string)
  : Task.Task (ToolResponse VisitPlan) :=
  Task.try_catch
    (park <- Task.await (GetParkById parkCode)
               (getParkById npsService parkCode) ;;
     match park with
     | None =>
         Task.ret (Message ("Could not find park with code: " ++ parkCode))
     | Some park =>
         alerts <- Task.await (GetAlertsByPark parkCode)
                     (getAlertsByPark npsService parkCode) ;;
         forecast <- Task.await (Get7DayForecastByLocation (park_name park))
                       (get7DayForecastByLocation weatherService
                          (park_name park)) ;;
         detailedForecast <-
           Task.await (GetDetailedForecast (park_name park))
             (getDetailedForecast weatherService (park_name park)) ;;
         let goodWeatherDays := rankDays detailedForecast in
         Task.ret (Report
           {| vp_park := park;
              vp_closureAlerts := closureAlerts alerts;
              vp_forecast := forecast;
              vp_recommended := JSArray.slice goodWeatherDays 0 3;
              vp_trip := (startDate, endDate) |})
     end)
    (fun error =>
       Task.ret (Message ("Error planning park visit: " ++ message error))).

End PlanningTools.

(* ===================================================================== *)
(** ** findNearbyRecreation *)
(* ===================================================================== *)

Module RecreationTools.
Import JSNumber JSString.
Local Open Scope task_scope.

(** [distance < 25 ? 25 : distance] *)
Definition adjustedDistance (distance : number) : number :=
  if lt distance 25 then 25%float else distance.

(** The loop over [nearbyParks] that concatenates each park's trails onto
    [trails]; a park without a park code is skipped. *)
Fixpoint collect_trails (recGovService : RecGovService)
    (parks : list Park) (trails : list Trail) : Task.Task (list Trail) :=
  match parks with
  | [] => Task.ret trails
  | park :: rest =>
      match parkCode park with
      | Some code =>
          if truthy code then
            parkTrails <- Task.await (GetTrailsByPark code)
                            (getTrailsByPark recGovService code) ;;
            collect_trails recGovService rest (trails ++ parkTrails)%list
          else collect_trails recGovService rest trails
      | None => collect_trails recGovService rest trails
      end
  end.

(** [d ? d.toLowerCase() : ''] *)
Definition lower_or_empty (d : option string) : string :=
  match d with
  | Some d => if truthy d then toLowerCase d else ""
  | None => ""
  end.

(** The predicate of [facilities.filter]. *)
Definition facility_matches (activityType : string) (f : Facility) : bool :=
  let nameLower := toLowerCase (facilityName f) in
  let descLower := lower_or_empty (facilityDescription f) in
  includes nameLower (toLowerCase activityType) ||
  includes descLower (toLowerCase activityType).

(** Truthiness of a [trailUse] value, and [Array.isArray] of it. *)
Definition use_truthy (u : TrailUse) : bool :=
  match u with
  | UseAbsent => false
  | UseArray _ => true
  | UseNotArray v => truthy v
  end.

Definition isArray (u : TrailUse) : bool :=
  match u with
  | UseArray _ => true
  | _ => false
  end.

Definition elements (u : TrailUse) : list string :=
  match u with
  | UseArray uses => uses
  | _ => []
  end.

(** The fallback of the trail filter: the activity term in the trail's
    name or description. *)
Definition trail_text_matches (activityType : string) (trail : Trail)
  : bool :=
  let nameLower := toLowerCase (trail_name trail) in
  let descLower := lower_or_empty (trail_description trail) in
  includes nameLower (toLowerCase activityType) ||
  includes descLower (toLowerCase activityType).

(** The predicate of [trails.filter]. *)
Definition trail_matches (activityType : string) (trail : Trail) : bool :=
  if use_truthy (trailUse trail) && isArray (trailUse trail) then
    JSArray.some
      (fun use => includes (toLowerCase use) (toLowerCase activityType))
      (elements (trailUse trail))
  else trail_text_matches activityType trail.

Definition filterFacilities (activityType : option string)
    (facilities : list Facility) : list Facility :=
  match activityType with
  | Some a => if truthy a then filter (facility_matches a) facilities
              else facilities
  | None => facilities
  end.

Definition filterTrails (activityType : option string)
    (trails : list Trail) : list Trail :=
  match activityType with
  | Some a =>
      if truthy a && (0 <? JSArray.length trails)
      then filter (trail_matches a) trails
      else trails
  | None => trails
  end.

(** What the recreation report is rendered from. *)
Record Recreation := {
  r_location : string;
  r_forecast : option (list ForecastDay);
  r_adjustedDistance : number;
  parks : list Park;
  facilities : list Facility;
  trails : list Trail
}.

Definition findNearbyRecreation
    (npsService : NpsApiService) (recGovService : RecGovService)
    (weatherService : WeatherApiService) (http : HttpClient)
    (location : string) (distance : number)
    (activityType : option string) (includeTrails : bool)
  : Task.Task (ToolResponse Recreation) :=
  Task.try_catch
    (coordinates <-
       NominatimGeocodingService.getCoordinates http location ;;
     match coordinates with
     | None =>
         Task.ret (Message
           ("Could not identify the location: " ++ location ++
            ". Please try a more specific location name or provide coordinates."))
     | Some coordinates =>
         let adjusted := adjustedDistance distance in
         facilities <-
           Task.await
             (GetFacilitiesByLocation (latitude coordinates)
                (longitude coordinates) adjusted)
             (getFacilitiesByLocation recGovService
                (latitude coordinates) (longitude coordinates) adjusted) ;;
         nearbyParks <-
           Task.await
             (SearchParksByLocation (latitude coordinates)
                (longitude coordinates) 5)
             (searchParksByLocation npsService
                (latitude coordinates) (longitude coordinates) 5) ;;
         trails <-
           (if includeTrails
            then collect_trails recGovService nearbyParks []
            else Task.ret []) ;;
         let filteredFacilities := filterFacilities activityType facilities in
         let filteredTrails := filterTrails activityType trails in
         forecast <-
           Task.await (Get7DayForecastByLocation location)
             (get7DayForecastByLocation weatherService location) ;;
         Task.ret (Report
           {| r_location := location;
              r_forecast := forecast;
              r_adjustedDistance := adjusted;
              parks := nearbyParks;
              facilities := filteredFacilities;
              trails := filteredTrails |})
     end)
    (fun error =>
       Task.ret (Message
         ("Error finding nearby recreation: " ++ message error))).

End RecreationTools.

(* ===================================================================== *)
(** ** findParks *)
(* ===================================================================== *)

Module SearchTools.
Import JSString.
Local Open Scope task_scope.

(** [x !== undefined] *)
Definition defined {A} (x : option A) : bool :=
  match x with
  | Some _ => true
  | None => false
  end.

(** The selection of the service method, and the manual pagination of the
    activity branch. *)
Definition selectParks (npsService : NpsApiService)
    (q stateCode activity : option string) (limit start : Z)
  : Task.Task (list Park) :=
  if defined q || defined stateCode then
    Task.await (SearchParks q stateCode limit start)
      (searchParks npsService q stateCode limit start)
  else
    match activity with
    | Some a =>
        if truthy a then
          parks <- Task.await (GetParksByActivity a)
                     (getParksByActivity npsService a) ;;
          Task.ret
            (JSArray.slice parks start
               (Z.min (JSArray.length parks) (start + limit)))
        else
          Task.await (GetParks limit start) (getParks npsService limit start)
    | None =>
        Task.await (GetParks limit start) (getParks npsService limit start)
    end.

(** What the search results are rendered from. *)
Record ParkResults := {
  found : list Park;
  pr_start : Z;
  pr_limit : Z
}.

Definition findParks (npsService : NpsApiService)
    (q stateCode activity : option string) (limit start : Z)
  : Task.Task (ToolResponse ParkResults) :=
  Task.try_catch
    (parks <- selectParks npsService q stateCode activity limit start ;;
     if JSArray.length parks =? 0 then
       Task.ret (Message "No parks found matching your criteria.")
     else
       Task.ret (Report {| found := parks;
                           pr_start := start;
                           pr_limit := limit |}))
    (fun error =>
       Task.ret (Message ("Error finding parks: " ++ message error))).

End SearchTools.

(* ===================================================================== *)
(** ** Example inputs *)
(* ===================================================================== *)

Module Examples.

(** The example days of the specification. *)
Definition sunny_day : ForecastDay :=
  {| date := "2025-06-01"; minTempF := 70; maxTempF := 78;
     condition := "Sunny"; chanceOfRain := Some 10%float |}.

Definition snowy_day : ForecastDay :=
  {| date := "2025-06-02"; minTempF := 40; maxTempF := 45;
     condition := "Snow"; chanceOfRain := Some 70%float |}.

(** A second day like the snowy one, later in the forecast. *)
Definition snowy_day_later : ForecastDay :=
  {| date := "2025-06-03"; minTempF := 40; maxTempF := 45;
     condition := "Snow"; chanceOfRain := Some 70%float |}.

(** The sunny day with no rain chance reported. *)
Definition sunny_day_no_rain_chance : ForecastDay :=
  {| date := "2025-06-01"; minTempF := 70; maxTempF := 78;
     condition := "Sunny"; chanceOfRain := None |}.


(** A geocoder that is down, one that finds nothing, one that finds Estes
    Park, and one whose answer has no numbers in it. *)
Definition failing_http : HttpClient :=
  {| http_get := fun _ _ => Thrown {| message := "fetch failed" |} |}.

Definition empty_http : HttpClient :=
  {| http_get := fun _ _ => Returned (Some []) |}.

Definition estes_park : NominatimPlace :=
  {| lat := "40.5"; lon := "-105.5";
     display_name := "Estes Park, Larimer County, Colorado" |}.

Definition estes_http : HttpClient :=
  {| http_get := fun _ _ => Returned (Some [estes_park]) |}.

Definition garbled_place : NominatimPlace :=
  {| lat := "abc"; lon := "n/a"; display_name := "Nowhere" |}.

Definition garbled_http : HttpClient :=
  {| http_get := fun _ _ => Returned (Some [garbled_place]) |}.

(** Twelve parks, as an activity search returns them. *)
Definition park_of_code (code : string) : Park :=
  {| parkCode := Some code; park_name := code;
     park_description := None; park_url := None |}.

Definition twelve_parks : list Park :=
  map park_of_code
    ["acad"; "arch"; "badl"; "bibe"; "bisc"; "blca";
     "brca"; "cany"; "care"; "cave"; "chis"; "cong"].

Definition romo : Park := park_of_code "romo".

(** A parks service that answers every query. *)
Definition nps : NpsApiService :=
  {| getParkById := fun code => Returned (Some (park_of_code code));
     getAlertsByPark := fun _ => Returned [];
     searchParks := fun _ _ _ _ => Returned [romo];
     getParksByActivity := fun _ => Returned twelve_parks;
     getParks := fun _ _ => Returned [romo];
     searchParksByLocation := fun _ _ _ => Returned [romo] |}.

(** Two alerts of a park, and a parks service that reports them. *)
Definition tioga_road_closed : Alert :=
  {| title := "Tioga Road is CLOSED for the season";
     category := "Information";
     alert_description := "The road closes each November." |}.

Definition wildlife_advisory : Alert :=
  {| title := "Wildlife Advisory"; category := "Safety";
     alert_description := "Bears are active in the valley." |}.

Definition nps_with_alerts : NpsApiService :=
  {| getParkById := fun code => Returned (Some (park_of_code code));
     getAlertsByPark :=
       fun _ => Returned [wildlife_advisory; tioga_road_closed];
     searchParks := fun _ _ _ _ => Returned [];
     getParksByActivity := fun _ => Returned [];
     getParks := fun _ _ => Returned [];
     searchParksByLocation := fun _ _ _ => Returned [] |}.

(** A recreation service whose facility search fails. *)
Definition failing_recGov : RecGovService :=
  {| getFacilitiesByLocation :=
       fun _ _ _ => Thrown {| message := "RIDB unavailable" |};
     getTrailsByPark := fun _ => Returned [] |}.

(** A trail with an empty [trailUse] array and one without the field; both
    mention hiking in their names. *)
Definition trail_empty_use : Trail :=
  {| trail_name := "Hiking Loop"; trail_description := Some "A hiking trail";
     trailUse := UseArray [] |}.

Definition trail_no_use : Trail :=
  {| trail_name := "Hiking Loop"; trail_description := Some "A hiking trail";
     trailUse := UseAbsent |}.

Definition recGov : RecGovService :=
  {| getFacilitiesByLocation := fun _ _ _ => Returned [];
     getTrailsByPark := fun _ => Returned [trail_empty_use; trail_no_use] |}.

Definition weather : WeatherApiService :=
  {| get7DayForecastByLocation := fun _ => Returned None;
     getDetailedForecast := fun _ => Returned None |}.

End Examples.

(* ===================================================================== *)
(** ** Reading strings and logs *)
(* ===================================================================== *)

Module Reading.

(** Every character of [s] satisfies [p]. *)
Fixpoint string_forall (p : ascii -> bool) (s : string) : bool :=
  match s with
  | EmptyString => true
  | String c s' => p c && string_forall p s'
  end.

(** A character [encodeURIComponent] can put out: an unreserved one, or the
    percent sign of an escape. *)
Definition url_safe (c : ascii) : bool :=
  JSGlobal.is_unreserved c || Ascii.eqb c "%".

(** The value of a hexadecimal digit [0-9A-F]. *)
Definition unhex (c : ascii) : N :=
  let n := N_of_ascii c in
  if (n <? 58)%N then (n - 48)%N else (n - 55)%N.



End Reading.

(* ===================================================================== *)
(** ** More example inputs *)
(* ===================================================================== *)

Module MoreExamples.



(** A weather service that is down. *)
Definition failing_weather : WeatherApiService :=
  {| get7DayForecastByLocation :=
       fun _ => Thrown {| message := "weather unavailable" |};
     getDetailedForecast :=
       fun _ => Thrown {| message := "weather unavailable" |} |}.

(** A parks service that knows no park, and one whose every query
    throws. *)
Definition nps_without_parks : NpsApiService :=
  {| getParkById := fun _ => Returned None;
     getAlertsByPark := fun _ => Returned [];
     searchParks := fun _ _ _ _ => Returned [];
     getParksByActivity := fun _ => Returned [];
     getParks := fun _ _ => Returned [];
     searchParksByLocation := fun _ _ _ => Returned [] |}.

Definition failing_nps : NpsApiService :=
  let failure {A} : Outcome A :=
    Thrown {| message := "NPS API unavailable" |} in
  {| getParkById := fun _ => failure;
     getAlertsByPark := fun _ => failure;
     searchParks := fun _ _ _ _ => failure;
     getParksByActivity := fun _ => failure;
     getParks := fun _ _ => failure;
     searchParksByLocation := fun _ _ _ => failure |}.

(** A weather service with a detailed forecast of four days. *)
Definition four_day_weather : WeatherApiService :=
  {| get7DayForecastByLocation := fun _ => Returned None;
     getDetailedForecast :=
       fun _ => Returned (Some [Examples.snowy_day; Examples.sunny_day;
                                Examples.snowy_day_later;
                                Examples.sunny_day_no_rain_chance]) |}.

End MoreExamples.

(* ===================================================================== *)
(** ** What the handlers show of a list *)
(* ===================================================================== *)

Module Rendering.

(** [l.slice(0, k)], the items a handler lists, and the count of its
    "...and N more" or "Plus N more" line, which is written when the list
    is longer than [k]. *)
Definition first_of {A} (k : Z) (l : list A) : list A := JSArray.slice l 0 k.

Definition more_than {A} (k : Z) (l : list A) : option Z :=
  if k <? JSArray.length l then Some (JSArray.length l - k) else None.

(** [findNearbyRecreation]: the "No Recreation Areas Found" test, and the
    eight facilities and eight trails it lists. *)
Definition foundSomething (r : RecreationTools.Recreation) : bool :=
  (0 <? JSArray.length (RecreationTools.facilities r)) ||
  (0 <? JSArray.length (RecreationTools.parks r)) ||
  (0 <? JSArray.length (RecreationTools.trails r)).

Definition shownFacilities (r : RecreationTools.Recreation) : list Facility :=
  first_of 8 (RecreationTools.facilities r).

Definition moreFacilities (r : RecreationTools.Recreation) : option Z :=
  more_than 8 (RecreationTools.facilities r).

Definition shownTrails (r : RecreationTools.Recreation) : list Trail :=
  first_of 8 (RecreationTools.trails r).

Definition moreTrails (r : RecreationTools.Recreation) : option Z :=
  more_than 8 (RecreationTools.trails r).

(** [findParks]: the "(starting at result N)" of the heading, and the
    [start] of the "To see more results" line, written when the page has
    at least [limit] parks. *)
Definition startingAt (r : SearchTools.ParkResults) : option Z :=
  if 0 <? SearchTools.pr_start r then Some (SearchTools.pr_start r + 1)
  else None.

Definition moreResultsStart (r : SearchTools.ParkResults) : option Z :=
  if SearchTools.pr_limit r <=? JSArray.length (SearchTools.found r)
  then Some (SearchTools.pr_start r + SearchTools.pr_limit r)
  else None.

End Rendering.

(* ===================================================================== *)
(** ** getParkWeatherForecast *)
(* ===================================================================== *)

Module WeatherTools.
Local Open Scope task_scope.

(** What the forecast text is rendered from: the park and its forecast
    days. *)
Record ParkForecast := {
  pf_park : Park;
  pf_days : list ForecastDay
}.

Definition getParkWeatherForecast (npsService : NpsApiService)
    (weatherService : WeatherApiService) (parkCode : string)
  : Task.Task (ToolResponse ParkForecast) :=
  Task.try_catch
    (park <- Task.await (GetParkById parkCode)
               (getParkById npsService parkCode) ;;
     match park with
     | None =>
         Task.ret (Message ("Could not find park with code: " ++ parkCode))
     | Some park =>
         forecast <- Task.await (Get7DayForecastByLocation (park_name park))
                       (get7DayForecastByLocation weatherService
                          (park_name park)) ;;
         match forecast with
         | Some (day :: days) =>
             Task.ret (Report {| pf_park := park;
                                 pf_days := day :: days |})
         | _ =>
             Task.ret (Message
               ("Found park " ++ park_name park ++
                ", but could not retrieve weather forecast."))
         end
     end)
    (fun error =>
       Task.ret (Message
         ("Error retrieving park weather forecast: " ++ message error))).

End WeatherTools.

(* ===================================================================== *)
(** ** The park tools *)
(* ===================================================================== *)

Module ParkTools.

(** Modelled from the spec: the [Campground] and [Event] records of the
    parks service, whose declarations are not among the sources, with a
    name or title each. *)
Record Campground := { campground_name : string }.

Record Event := { event_title : string }.

(** An activity of a park: its name. *)
Record Activity := { activity_name : string }.

(** The calls of the park tools, with their arguments. *)
Inductive ParkCall :=
| ParkById (code : string)
| AlertsByPark (code : string)
| ForecastByLocation (location : string)
| EventsByPark (code startDate endDate : string)
| CampgroundsByPark (code : string).

(** Modelled from the spec: the methods of the parks and weather services
    that the park tools call (section 6), each given by the outcome of
    calling it, and the clock: [isoDate n] is the calendar date the handler
    computes for [n] days from today. *)
Record ParkServices := {
  parkById : string -> Outcome (option Park);
  alertsByPark : string -> Outcome (list Alert);
  forecastByLocation : string -> Outcome (option (list ForecastDay));
  eventsByPark : string -> string -> string -> Outcome (list Event);
  campgroundsByPark : string -> Outcome (list Campground);
  isoDate : Z -> string
}.

(** An asynchronous handler over these calls: as [Task.Task], with a log of
    park calls. *)
Definition Script (A : Type) : Type :=
  list ParkCall -> Outcome A * list ParkCall.

Definition ret {A} (a : A) : Script A := fun log => (Returned a, log).

Definition bind {A B} (m : Script A) (k : A -> Script B) : Script B :=
  fun log =>
    match m log with
    | (Returned a, log') => k a log'
    | (Thrown e, log') => (Thrown e, log')
    end.

Definition try_catch {A} (body : Script A) (handler : JSError -> Script A)
  : Script A :=
  fun log =>
    match body log with
    | (Returned a, log') => (Returned a, log')
    | (Thrown e, log') => handler e log'
    end.

Definition await {A} (c : ParkCall) (o : Outcome A) : Script A :=
  fun log => (o, (log ++ [c])%list).

Definition run {A} (m : Script A) : Outcome A * list ParkCall := m [].

(** A section of [getParkInfo] that is fetched only when it is asked
    for. *)
Definition when_included {A} (included : bool) (m : Script A)
  : Script (option A) :=
  if included then bind m (fun a => ret (Some a)) else ret None.

(** [Array.prototype.join] *)
Fixpoint join (separator : string) (l : list string) : string :=
  match l with
  | [] => ""
  | [s] => s
  | s :: rest => (s ++ separator ++ join separator rest)%string
  end.

(** The loop of [getParkInfo] that lists the activities five to a line:
    [i] runs from 0 in steps of 5 while it is below the number of
    activities.  [fuel] bounds the number of rounds. *)
Fixpoint activity_loop (fuel : nat) (activities : list Activity) (i : Z)
    (activityGroups : list string) : list string :=
  match fuel with
  | O => activityGroups
  | S fuel' =>
      if i <? JSArray.length activities then
        activity_loop fuel' activities (i + 5)
          (activityGroups ++
           [join ", " (map activity_name
                         (JSArray.slice activities i (i + 5)))])%list
      else activityGroups
  end.

(** The loop takes no more rounds than there are activities. *)
Definition activityGroups (activities : list Activity) : list string :=
  activity_loop (List.length activities) activities 0 [].

(** The line of a group of activities: their names, joined. *)
Definition line_of (group : list Activity) : string :=
  join ", " (map activity_name group).

(** What the park information is rendered from: the park, and each
    section that was asked for. *)
Record ParkInfo := {
  pi_park : Park;
  pi_basics : bool;
  pi_alerts : option (list Alert);
  pi_forecast : option (option (list ForecastDay));
  pi_events : option (list Event);
  pi_campgrounds : option (list Campground);
  pi_images : bool
}.

Definition getParkInfo (services : ParkServices) (parkCode : string)
    (includeBasics includeAlerts includeWeather includeEvents
     includeCamping includeImages : bool)
  : Script (ToolResponse ParkInfo) :=
  try_catch
    (bind (await (ParkById parkCode) (parkById services parkCode))
       (fun park =>
     match park with
     | None => ret (Message ("Could not find park with code: " ++ parkCode))
     | Some park =>
         bind (when_included includeAlerts
                 (await (AlertsByPark parkCode)
                    (alertsByPark services parkCode)))
           (fun alerts =>
         bind (when_included includeWeather
                 (await (ForecastByLocation (park_name park))
                    (forecastByLocation services (park_name park))))
           (fun forecast =>
         bind (when_included includeEvents
                 (let startDateStr := isoDate services 0 in
                  let endDateStr := isoDate services 14 in
                  await (EventsByPark parkCode startDateStr endDateStr)
                    (eventsByPark services parkCode startDateStr
                       endDateStr)))
           (fun events =>
         bind (when_included includeCamping
                 (await (CampgroundsByPark parkCode)
                    (campgroundsByPark services parkCode)))
           (fun campgrounds =>
         ret (Report {| pi_park := park;
                        pi_basics := includeBasics;
                        pi_alerts := alerts;
                        pi_forecast := forecast;
                        pi_events := events;
                        pi_campgrounds := campgrounds;
                        pi_images := includeImages |})))))
     end))
    (fun error =>
       ret (Message
         ("Error retrieving park information: " ++ message error))).

(** What the campground list is rendered from. *)
Record CampgroundsPage := {
  cp_park : Park;
  totalCount : Z;
  campgrounds : list Campground;
  cp_limit : Z;
  cp_start : Z
}.

Definition getCampgrounds (services : ParkServices) (parkCode : string)
    (limit start : Z) : Script (ToolResponse CampgroundsPage) :=
  try_catch
    (bind (await (ParkById parkCode) (parkById services parkCode))
       (fun park =>
     match park with
     | None => ret (Message ("No park found with code: " ++ parkCode))
     | Some park =>
         bind (await (CampgroundsByPark parkCode)
                 (campgroundsByPark services parkCode))
           (fun campgrounds =>
         let totalCount := JSArray.length campgrounds in
         let campgrounds := JSArray.slice campgrounds start (start + limit) in
         if JSArray.length campgrounds =? 0 then
           ret (Message ("No campgrounds found in " ++ park_name park ++
                         " (Park Code: " ++ parkCode ++ ")."))
         else
           ret (Report {| cp_park := park;
                          totalCount := totalCount;
                          campgrounds := campgrounds;
                          cp_limit := limit;
                          cp_start := start |}))
     end))
    (fun error =>
       ret (Message
         ("Error retrieving campground information: " ++ message error))).

(** The number in the heading of the campground at [index] of the page. *)
Definition campgroundNumber (page : CampgroundsPage) (index : Z) : Z :=
  index + 1 + cp_start page.

(** The [start] of the "To see more campgrounds" line, written when more
    campgrounds follow the page. *)
Definition moreCampgroundsStart (page : CampgroundsPage) : option Z :=
  if cp_start page + cp_limit page <? totalCount page
  then Some (cp_start page + cp_limit page)
  else None.

End ParkTools.

(* ===================================================================== *)
(** ** Example inputs for the park tools *)
(* ===================================================================== *)

Module ParkExamples.
Import ParkTools.

Definition three_campgrounds : list Campground :=
  [{| campground_name := "Upper Pines" |};
   {| campground_name := "Lower Pines" |};
   {| campground_name := "North Pines" |}].

(** Services that know every park code, with three campgrounds and no
    alerts, forecast or events, on the first of June 2025. *)
Definition yosemite_services : ParkServices :=
  {| parkById := fun code => Returned (Some (Examples.park_of_code code));
     alertsByPark := fun _ => Returned [];
     forecastByLocation := fun _ => Returned None;
     eventsByPark := fun _ _ _ => Returned [];
     campgroundsByPark := fun _ => Returned three_campgrounds;
     isoDate := fun n =>
       if n =? 0 then "2025-06-01" else
       if n =? 14 then "2025-06-15" else "2025-07-01" |}.

(** The same with the alerts down. *)
Definition services_without_alerts : ParkServices :=
  {| parkById := fun code => Returned (Some (Examples.park_of_code code));
     alertsByPark := fun _ => Thrown {| message := "alerts unavailable" |};
     forecastByLocation := fun _ => Returned None;
     eventsByPark := fun _ _ _ => Returned [];
     campgroundsByPark := fun _ => Returned three_campgrounds;
     isoDate := fun n =>
       if n =? 0 then "2025-06-01" else
       if n =? 14 then "2025-06-15" else "2025-07-01" |}.

End ParkExamples.
(* ===================================================================== *)
(** ** Facts about numbers and strings *)
(* ===================================================================== *)

Module JSNumberFacts.
Import JSNumber.

Lemma SFadd_comm (x y : spec_float) : SF64add x y = SF64add y x.
Proof.
  unfold SF64add, SFadd.
  destruct x as [sx|sx| |sx mx ex], y as [sy|sy| |sy my ey];
    try reflexivity;
    try (destruct sx, sy; reflexivity).
  rewrite Z.min_comm, Z.add_comm. reflexivity.
Qed.

Lemma add_comm (a b : number) : (a + b)%float = (b + a)%float.
Proof.
  apply Prim2SF_inj. rewrite !add_spec. apply SFadd_comm.
Qed.

(** The IEEE order through its specification: antisymmetric, and total
    away from NaN. *)
Lemma SFcompare_antisym (x y : spec_float) :
  SFcompare y x = option_map CompOpp (SFcompare x y).
Proof.
  destruct x as [sx|sx| |sx mx ex], y as [sy|sy| |sy my ey]; simpl;
    try reflexivity;
    try (destruct sx; reflexivity); try (destruct sy; reflexivity);
    try (destruct sx, sy; reflexivity).
  destruct sx, sy; try reflexivity;
    rewrite (Z.compare_antisym ex ey);
    destruct (ex ?= ey) eqn:E; simpl; try reflexivity;
    rewrite !Pos.compare_cont_spec; simpl;
    rewrite (Pos.compare_antisym mx my);
    destruct (mx ?= my)%positive; reflexivity.
Qed.

Lemma SFcompare_None (x y : spec_float) :
  SFcompare x y = None -> x = S754_nan \/ y = S754_nan.
Proof.
  destruct x as [sx|sx| |sx mx ex], y as [sy|sy| |sy my ey]; simpl; auto;
    discriminate.
Qed.

Lemma not_NaN (a : number) : isNaN a = false -> Prim2SF a <> S754_nan.
Proof.
  unfold isNaN. rewrite eqb_spec. unfold SFeqb. intros H E.
  rewrite E in H. discriminate.
Qed.

Lemma lt_not_ge (a b : number) : lt a b = true -> ge a b = false.
Proof.
  unfold lt, ge. rewrite ltb_spec, leb_spec. unfold SFltb, SFleb.
  rewrite (SFcompare_antisym (Prim2SF a) (Prim2SF b)).
  destruct (SFcompare (Prim2SF a) (Prim2SF b)) as [[]|];
    discriminate || reflexivity.
Qed.

Lemma ge_not_lt (a b : number) : ge a b = true -> lt a b = false.
Proof.
  intros H. destruct (lt a b) eqn:E; [|reflexivity].
  apply lt_not_ge in E. congruence.
Qed.

Lemma not_lt_ge (a b : number) :
  isNaN a = false -> isNaN b = false -> lt a b = false -> ge a b = true.
Proof.
  intros Ha Hb. apply not_NaN in Ha, Hb.
  unfold lt, ge. rewrite ltb_spec, leb_spec. unfold SFltb, SFleb.
  rewrite (SFcompare_antisym (Prim2SF a) (Prim2SF b)).
  destruct (SFcompare (Prim2SF a) (Prim2SF b)) as [[]|] eqn:E;
    try discriminate; try reflexivity.
  apply SFcompare_None in E. tauto.
Qed.

End JSNumberFacts.

Module JSStringFacts.
Import JSString.

Lemma startsWith_spec (s p : string) :
  startsWith s p = true <-> exists post, s = p ++ post.
Proof.
  revert s. induction p as [|a p IH]; intros s; simpl.
  - split; [intros _; exists s; reflexivity | reflexivity].
  - destruct s as [|b s].
    + split; [discriminate | intros [post H]; discriminate].
    + rewrite andb_true_iff, Ascii.eqb_eq, IH. split.
      * intros [-> [post ->]]. exists post. reflexivity.
      * intros [post H]. injection H as -> ->. split; eauto.
Qed.

Lemma includes_spec (s sub : string) :
  includes s sub = true <-> exists pre post, s = pre ++ sub ++ post.
Proof.
  induction s as [|c s IH]; simpl.
  - rewrite orb_false_r, startsWith_spec. split.
    + intros [post H]. exists "", post. exact H.
    + intros [pre [post H]]. destruct pre; [|discriminate].
      exists post. exact H.
  - rewrite orb_true_iff, startsWith_spec, IH. split.
    + intros [[post H] | [pre [post H]]].
      * exists "", post. exact H.
      * exists (String c pre), post. simpl. rewrite H. reflexivity.
    + intros [pre [post H]]. destruct pre as [|c' pre]; simpl in H.
      * left. exists post. exact H.
      * right. injection H as _ H. exists pre, post. exact H.
Qed.

Lemma toLowerCase_app (a b : string) :
  toLowerCase (a ++ b) = toLowerCase a ++ toLowerCase b.
Proof. induction a as [|c a IH]; simpl; [|rewrite IH]; reflexivity. Qed.

Lemma toLowerCase_split (s a b : string) :
  toLowerCase s = a ++ b ->
  exists a' b', s = a' ++ b' /\ toLowerCase a' = a /\ toLowerCase b' = b.
Proof.
  revert s. induction a as [|c a IH]; intros s H; simpl in H.
  - exists "", s. auto.
  - destruct s as [|d s]; [discriminate|]. simpl in H.
    injection H as Hc H. destruct (IH _ H) as [a' [b' [-> [Ha Hb]]]].
    exists (String d a'), b'. simpl. rewrite Hc, Ha. auto.
Qed.



(** [s.toLowerCase().includes(k)], for a lower-case [k], is containment
    up to case. *)
Lemma includes_toLowerCase (s k : string) :
  toLowerCase k = k ->
  includes (toLowerCase s) k = true <-> contains_ci s k.
Proof.
  intros Hk. rewrite includes_spec. unfold contains_ci. split.
  - intros [pre [post H]].
    apply toLowerCase_split in H. destruct H as [pre' [r [-> [_ H]]]].
    apply toLowerCase_split in H. destruct H as [mid [post' [-> [H _]]]].
    exists pre', mid, post'. rewrite Hk. auto.
  - intros [pre [mid [post [-> H]]]].
    exists (toLowerCase pre), (toLowerCase post).
    rewrite !toLowerCase_app, H, Hk. reflexivity.
Qed.

End JSStringFacts.

(* ===================================================================== *)
(** ** The sort *)
(* ===================================================================== *)

Module JSArrayFacts.
Import JSArray.

Section Sort.
Context {A : Type} (cmp : A -> A -> Z).

Lemma sort_insert_perm (x : A) (l : list A) :
  Permutation (x :: l) (sort_insert cmp x l).
Proof.
  induction l as [|y l IH]; simpl; [reflexivity|].
  destruct (cmp x y <=? 0); [reflexivity|].
  rewrite perm_swap. constructor. exact IH.
Qed.

Lemma sort_perm (l : list A) : Permutation l (sort cmp l).
Proof.
  induction l as [|x l IH]; simpl; [constructor|].
  rewrite <- sort_insert_perm. constructor. exact IH.
Qed.

(** A filter that never keeps two elements the comparator would put in
    the other order does not see an insertion move anything. *)
Lemma filter_sort_insert (p : A -> bool) (x : A) (l : list A) :
  (forall a b, p a = true -> p b = true -> cmp a b <= 0) ->
  filter p (sort_insert cmp x l) = filter p (x :: l).
Proof.
  intros Hp. induction l as [|y l IH]; [reflexivity|].
  cbn [sort_insert]. destruct (cmp x y <=? 0) eqn:E; [reflexivity|].
  cbn [filter] in *. rewrite IH.
  destruct (p x) eqn:Px, (p y) eqn:Py; try reflexivity.
  apply Z.leb_gt in E. specialize (Hp x y Px Py). lia.
Qed.

Lemma filter_sort (p : A -> bool) (l : list A) :
  (forall a b, p a = true -> p b = true -> cmp a b <= 0) ->
  filter p (sort cmp l) = filter p l.
Proof.
  intros Hp. induction l as [|x l IH]; [reflexivity|].
  cbn [sort fold_right]. rewrite filter_sort_insert by exact Hp.
  cbn [filter]. fold (sort cmp l). rewrite IH. reflexivity.
Qed.

(** For a comparator that is total and transitive the result is
    ordered. *)
Hypothesis cmp_total : forall a b, cmp a b <= 0 \/ cmp b a <= 0.
Hypothesis cmp_trans :
  forall a b c, cmp a b <= 0 -> cmp b c <= 0 -> cmp a c <= 0.

Lemma sort_insert_sorted (x : A) (l : list A) :
  StronglySorted (fun a b => cmp a b <= 0) l ->
  StronglySorted (fun a b => cmp a b <= 0) (sort_insert cmp x l).
Proof.
  induction 1 as [|y l Hl IH Hy]; simpl.
  - repeat constructor.
  - destruct (cmp x y <=? 0) eqn:E.
    + apply Z.leb_le in E. constructor.
      * constructor; assumption.
      * constructor; [exact E|].
        eapply Forall_impl; [|exact Hy]. intros z Hz. eauto.
    + apply Z.leb_gt in E. constructor; [exact IH|].
      apply (Permutation_Forall (sort_insert_perm x l)).
      constructor; [|exact Hy].
      destruct (cmp_total y x); [assumption | lia].
Qed.

Lemma sort_sorted (l : list A) :
  StronglySorted (fun a b => cmp a b <= 0) (sort cmp l).
Proof.
  induction l as [|x l IH]; simpl; [constructor|].
  apply sort_insert_sorted. exact IH.
Qed.

End Sort.

Lemma StronglySorted_weaken {A : Type} (R R' : A -> A -> Prop)
    (l : list A) :
  (forall a b, R a b -> R' a b) ->
  StronglySorted R l -> StronglySorted R' l.
Proof.
  intros HR. induction 1 as [|a l Hl IH Ha]; constructor; [exact IH|].
  eapply Forall_impl; [|exact Ha]. intros b. apply HR.
Qed.

(** An element the filter keeps, with what the filter keeps before and
    after it. *)
Lemma filter_eq_middle {A : Type} (p : A -> bool) (l u v : list A) (a : A) :
  filter p l = (u ++ a :: v)%list ->
  exists l1 l2,
    l = (l1 ++ a :: l2)%list /\ filter p l1 = u /\ filter p l2 = v.
Proof.
  revert u. induction l as [|x l IH]; intros u H; cbn [filter] in H.
  - destruct u; discriminate.
  - destruct (p x) eqn:Px.
    + destruct u as [|y u]; cbn [app] in H; injection H as -> H.
      * exists [], l. auto.
      * destruct (IH u H) as [l1 [l2 [-> [H1 H2]]]].
        exists (y :: l1), l2. cbn [filter app]. rewrite Px, H1. auto.
    + destruct (IH u H) as [l1 [l2 [-> [H1 H2]]]].
      exists (x :: l1), l2. cbn [filter app]. rewrite Px. auto.
Qed.

Section Slice.
Context {A : Type}.

Lemma slice_nonneg (l : list A) (start limit : Z) :
  0 <= start -> 0 <= limit ->
  slice l start (Z.min (length l) (start + limit)) =
  firstn (Z.to_nat limit) (skipn (Z.to_nat start) l).
Proof.
  intros Hs Hl. unfold slice, relative_index, length.
  pose proof (length_skipn (Z.to_nat start) l) as Hlen.
  destruct (start <? 0) eqn:E1; [apply Z.ltb_lt in E1; lia|].
  destruct (Z.min _ (start + limit) <? 0) eqn:E2;
    [apply Z.ltb_lt in E2; lia|].
  set (n := Z.of_nat (List.length l)) in *.
  destruct (Z.le_gt_cases n start) as [Hout|Hin].
  - replace (Z.min start n) with n by lia.
    replace (Z.max (Z.min (Z.min n (start + limit)) n - n) 0) with 0
      by lia.
    rewrite (skipn_all2 (n := Z.to_nat start)) by lia.
    rewrite firstn_nil. reflexivity.
  - replace (Z.min start n) with start by lia.
    destruct (Z.le_gt_cases (start + limit) n) as [H1|H1].
    + replace (Z.max (Z.min (Z.min n (start + limit)) n - start) 0)
        with limit by lia.
      reflexivity.
    + rewrite !firstn_all2 by lia. reflexivity.
Qed.

Lemma slice_out_of_range (l : list A) (start limit : Z) :
  length l <= start -> 0 <= limit ->
  slice l start (Z.min (length l) (start + limit)) = [].
Proof.
  intros Hs Hl. rewrite slice_nonneg; unfold length in *; try lia.
  rewrite skipn_all2 by lia. apply firstn_nil.
Qed.

End Slice.

End JSArrayFacts.

(* ===================================================================== *)
(** ** planParkVisit: scoring, ranking and closure alerts *)
(* ===================================================================== *)

Module ScorerFacts.
Import JSNumber JSString Scorer PlanningTools Examples.
Import JSNumberFacts JSStringFacts.

Lemma temperature_step_points (day : ForecastDay) (s : Z) :
  temperature_step day s = s + temp_points day.
Proof.
  unfold temperature_step, temp_points, avg_temp, ge, le.
  rewrite (add_comm (maxTempF day) (minTempF day)).
  repeat match goal with |- context [if ?b then _ else _] => destruct b end;
    reflexivity.
Qed.

Lemma rain_step_points (day : ForecastDay) (s : Z) :
  rain_step day s = s + rain_points day.
Proof.
  unfold rain_step, rain_points, rain_bucket, ToNumber.
  destruct (chanceOfRain day) as [r|].
  - repeat match goal with |- context [if ?b then _ else _] => destruct b end;
      lia.
  - change (lt nan 20) with false. change (lt nan 40) with false.
    change (lt nan 60) with false. cbn. lia.
Qed.

Lemma good_condition_some (day : ForecastDay) :
  existsb (fun c => includes (toLowerCase (condition day)) c) goodConditions
    = true <-> good_condition day.
Proof.
  unfold goodConditions, good_condition. cbn [existsb].
  rewrite !orb_true_iff, !includes_toLowerCase by reflexivity.
  intuition discriminate.
Qed.

Lemma condition_step_points (day : ForecastDay) (s : Z) :
  exists c,
    ((c = 2 /\ good_condition day) \/ (c = 0 /\ ~ good_condition day)) /\
    condition_step day s = s + c.
Proof.
  unfold condition_step.
  destruct (existsb _ goodConditions) eqn:E.
  - exists 2. split; [left; split; [reflexivity|] | reflexivity].
    apply good_condition_some. exact E.
  - exists 0. split; [right; split; [reflexivity|] | lia].
    intros H. apply good_condition_some in H. congruence.
Qed.

Lemma temp_points_range (day : ForecastDay) : 1 <= temp_points day <= 3.
Proof.
  unfold temp_points.
  repeat match goal with |- context [if ?b then _ else _] => destruct b end;
    lia.
Qed.

Lemma rain_points_range (day : ForecastDay) : 0 <= rain_points day <= 3.
Proof.
  unfold rain_points, rain_bucket. destruct (chanceOfRain day); [|lia].
  repeat match goal with |- context [if ?b then _ else _] => destruct b end;
    lia.
Qed.

Lemma score_day_spec (day : ForecastDay) : score_spec day (score_day day).
Proof.
  unfold score_day, score_spec.
  destruct (condition_step_points day
              (rain_step day (temperature_step day 0))) as [c [Hc E]].
  rewrite E, rain_step_points, temperature_step_points.
  pose proof (temp_points_range day). pose proof (rain_points_range day).
  split.
  - destruct Hc as [[-> _]|[-> _]]; lia.
  - exists c. split; [exact Hc | lia].
Qed.

Lemma scoreDays_Some (days : list ForecastDay) :
  scoreDays (Some days) = map scored_day days.
Proof.
  unfold scoreDays, JSArray.length. destruct days; reflexivity.
Qed.

Lemma by_score_total (a b : ScoredDay) : by_score a b <= 0 \/ by_score b a <= 0.
Proof. unfold by_score. lia. Qed.

Lemma by_score_trans (a b c : ScoredDay) :
  by_score a b <= 0 -> by_score b c <= 0 -> by_score a c <= 0.
Proof. unfold by_score. lia. Qed.

Example score_sunny_day : score_day sunny_day = 8.
Proof. reflexivity. Qed.

Example score_snowy_day : score_day snowy_day = 1.
Proof. reflexivity. Qed.

Example rank_three_days :
  map sd_date (rankDays (Some [snowy_day; sunny_day; snowy_day_later]))
  = ["2025-06-01"; "2025-06-02"; "2025-06-03"].
Proof. reflexivity. Qed.

(** C3.  The score of every forecast day is the sum of its temperature
    points (3 when the average of the minimum and maximum temperature is
    in [65, 80], else 2 when it is in [50, 85], else 1), its rain points
    (3 below 20, 2 below 40, 1 below 60, else 0) and 2 exactly when the
    condition text contains "sunny", "clear" or "partly cloudy" up to
    case; it is an integer between 1 and 8, before and after the ranking;
    and the sunny example day scores 8. *)
Theorem score_is_sum_of_three_components (days : list ForecastDay) :
  Forall2 (fun day sd => score_spec day (score sd))
          days (scoreDays (Some days)) /\
  Forall (fun sd => 1 <= score sd <= 8) (rankDays (Some days)) /\
  score_day {| date := "2025-06-01"; minTempF := 70; maxTempF := 78;
               condition := "Sunny"; chanceOfRain := Some 10%float |} = 8.
Proof.
  split; [|split; [|reflexivity]].
  - rewrite scoreDays_Some.
    induction days as [|d days IH]; simpl; constructor; [|exact IH].
    apply score_day_spec.
  - unfold rankDays.
    apply (Permutation_Forall (JSArrayFacts.sort_perm by_score _)).
    rewrite scoreDays_Some. apply Forall_map, Forall_forall.
    intros d _. simpl. apply score_day_spec.
Qed.

(** C2, as the specification states it, fails.  The sunny example day
    without its rain chance would get 3 rain points if an absent rain chance
    were treated as 0; the rain step gives it none, and the day scores 5
    where the same day with a rain chance of 10 scores 8. *)
Lemma absent_rain_chance_is_not_scored_as_zero :
  chanceOfRain sunny_day_no_rain_chance = None /\
  rain_points_absent_as_zero sunny_day_no_rain_chance = 3 /\
  rain_step sunny_day_no_rain_chance 3 <>
    3 + rain_points_absent_as_zero sunny_day_no_rain_chance /\
  rain_step sunny_day_no_rain_chance 3 = 3 /\
  score_day sunny_day_no_rain_chance = 5 /\
  score_day sunny_day = 8.
Proof. repeat split. discriminate. Qed.

(** C2, amended.  For every forecast day whose rain chance is absent none
    of the three comparisons of the rain step holds ([undefined] compares
    as NaN), so the step leaves the score as it is: the day gets the same
    0 rain points as a day with a rain chance of 60 or more, and its score
    is its temperature and condition points alone. *)
Theorem absent_rain_chance_adds_nothing (day : ForecastDay) (s : Z) :
  chanceOfRain day = None ->
  rain_step day s = s /\
  rain_points day = 0 /\
  score_day day = condition_step day (temperature_step day 0).
Proof.
  intros H. unfold score_day, rain_points.
  assert (E : forall z, rain_step day z = z).
  { intros z. unfold rain_step. rewrite H. reflexivity. }
  rewrite !E, H. auto.
Qed.

(** The sunny day without a rain chance. *)
Lemma absent_rain_chance_adds_nothing_witness :
  rain_step sunny_day_no_rain_chance 3 = 3 /\
  rain_points sunny_day_no_rain_chance = 0 /\
  score_day sunny_day_no_rain_chance =
    condition_step sunny_day_no_rain_chance
      (temperature_step sunny_day_no_rain_chance 0).
Proof.
  apply (absent_rain_chance_adds_nothing sunny_day_no_rain_chance 3).
  reflexivity.
Defined.

(** The days of one score keep their order through the ranking. *)
Lemma rankDays_stable (detailedForecast : option (list ForecastDay)) (s : Z) :
  filter (fun sd => score sd =? s) (rankDays detailedForecast) =
  filter (fun sd => score sd =? s) (scoreDays detailedForecast).
Proof.
  unfold rankDays. apply JSArrayFacts.filter_sort.
  intros a b Ha Hb. apply Z.eqb_eq in Ha, Hb. unfold by_score. lia.
Qed.

(** C4.  The ranked days are the scored days reordered by descending
    score, and the sort is stable: the days of any one score come in the
    order the forecast lists them, so of two days with equal scores the one
    that is earlier in the forecast is earlier in the ranking.  Being a
    function of the forecast, the ranking is the same for the same
    forecast. *)
Theorem ranking_is_descending_and_stable
    (detailedForecast : option (list ForecastDay)) :
  Permutation (scoreDays detailedForecast) (rankDays detailedForecast) /\
  StronglySorted (fun a b => score a >= score b)
                 (rankDays detailedForecast) /\
  (forall s : Z,
     filter (fun sd => score sd =? s) (rankDays detailedForecast) =
     filter (fun sd => score sd =? s) (scoreDays detailedForecast)) /\
  (forall before a between b after,
     scoreDays detailedForecast =
       (before ++ a :: between ++ b :: after)%list ->
     score a = score b ->
     exists before' between' after',
       rankDays detailedForecast =
         (before' ++ a :: between' ++ b :: after')%list).
Proof.
  split; [|split; [|split]].
  - apply JSArrayFacts.sort_perm.
  - apply (JSArrayFacts.StronglySorted_weaken
             (fun a b => by_score a b <= 0)).
    + unfold by_score. intros a b H. lia.
    + apply JSArrayFacts.sort_sorted;
        [exact by_score_total | exact by_score_trans].
  - apply rankDays_stable.
  - intros before a between b after E Hs.
    pose proof (rankDays_stable detailedForecast (score a)) as F.
    rewrite E in F. rewrite !filter_app in F. cbn [filter] in F.
    rewrite !filter_app in F. cbn [filter] in F.
    rewrite <- Hs, Z.eqb_refl in F.
    apply JSArrayFacts.filter_eq_middle in F.
    destruct F as [m1 [rest [-> [_ F]]]].
    apply JSArrayFacts.filter_eq_middle in F.
    destruct F as [m2 [m3 [-> _]]].
    exists m1, m2, m3. reflexivity.
Qed.

(** The snowy day of June 2 stays ahead of the one of June 3. *)
Lemma ranking_is_descending_and_stable_witness :
  exists before between after,
    rankDays (Some [snowy_day; sunny_day; snowy_day_later]) =
      (before ++ scored_day snowy_day :: between ++
       scored_day snowy_day_later :: after)%list.
Proof.
  apply (proj2 (proj2 (proj2 (ranking_is_descending_and_stable
                                (Some [snowy_day; sunny_day;
                                       snowy_day_later]))))
           [] (scored_day snowy_day) [scored_day sunny_day]
           (scored_day snowy_day_later) []);
    reflexivity.
Defined.

(** What a visit plan holds: the closure alerts among the park's alerts,
    and the first three of the ranked days. *)
Lemma planParkVisit_report (npsService : NpsApiService)
    (weatherService : WeatherApiService) (parkCode : string)
    (startDate endDate : option string) (plan : VisitPlan) :
  Task.result (planParkVisit npsService weatherService parkCode
                 startDate endDate) = Returned (Report plan) ->
  exists alerts detailedForecast,
    getAlertsByPark npsService parkCode = Returned alerts /\
    vp_closureAlerts plan = closureAlerts alerts /\
    vp_recommended plan = JSArray.slice (rankDays detailedForecast) 0 3.
Proof.
  unfold Task.result, Task.run, planParkVisit, Task.try_catch, Task.bind,
    Task.await, Task.ret.
  destruct (getParkById npsService parkCode) as [[park|]|e];
    try discriminate.
  destruct (getAlertsByPark npsService parkCode) as [alerts|e];
    [|discriminate].
  destruct (get7DayForecastByLocation _ _) as [forecast|e]; [|discriminate].
  destruct (getDetailedForecast _ _) as [detailed|e]; [|discriminate].
  cbn [fst]. intros H. injection H as <-. exists alerts, detailed. auto.
Qed.

(** C7.  An alert is selected as a closure alert exactly when its title
    or its category contains "closure", or its title contains "closed",
    up to case; the closure alerts of a visit plan are the park's alerts
    that are so selected.  An alert of category "Park Closure" is selected
    whatever its title; the alert "Wildlife Advisory" of category "Safety"
    is not. *)
Theorem closure_alert_iff (a : Alert) :
  (is_closure_alert a = true <->
     (contains_ci (title a) "closure" \/ contains_ci (category a) "closure")
     \/ contains_ci (title a) "closed") /\
  (forall alerts, In a (closureAlerts alerts) <->
     In a alerts /\ is_closure_alert a = true) /\
  (forall npsService weatherService parkCode startDate endDate plan,
     Task.result (planParkVisit npsService weatherService parkCode
                    startDate endDate) = Returned (Report plan) ->
     exists alerts,
       getAlertsByPark npsService parkCode = Returned alerts /\
       (In a (vp_closureAlerts plan) <->
        In a alerts /\ is_closure_alert a = true)) /\
  (forall t d, is_closure_alert
     {| title := t; category := "Park Closure";
        alert_description := d |} = true) /\
  (forall d, is_closure_alert
     {| title := "Wildlife Advisory"; category := "Safety";
        alert_description := d |} = false).
Proof.
  split; [|split; [|split; [|split]]].
  - unfold is_closure_alert.
    rewrite !orb_true_iff, !includes_toLowerCase by reflexivity. tauto.
  - intros alerts. apply filter_In.
  - intros npsService weatherService parkCode startDate endDate plan H.
    apply planParkVisit_report in H.
    destruct H as [alerts [detailed [Ha [-> _]]]].
    exists alerts. split; [exact Ha | apply filter_In].
  - intros t d. unfold is_closure_alert. cbn [title category].
    replace (includes (toLowerCase "Park Closure") "closure") with true
      by reflexivity.
    apply orb_true_r.
  - reflexivity.
Qed.

(** The alerts of a park with a closed road. *)
Lemma closure_alert_iff_witness :
  exists alerts,
    getAlertsByPark nps_with_alerts "yose" = Returned alerts /\
    (In tioga_road_closed alerts /\
     is_closure_alert tioga_road_closed = true).
Proof.
  destruct (proj1 (proj2 (proj2 (closure_alert_iff tioga_road_closed)))
              nps_with_alerts weather "yose" None None
              {| vp_park := park_of_code "yose";
                 vp_closureAlerts := [tioga_road_closed];
                 vp_forecast := None;
                 vp_recommended := [];
                 vp_trip := (None, None) |}
              eq_refl) as [alerts [Ha Hiff]].
  exists alerts. split; [exact Ha|].
  apply Hiff. left. reflexivity.
Defined.

End ScorerFacts.

(* ===================================================================== *)
(** ** The geocoding service *)
(* ===================================================================== *)

Module GeocodingFacts.
Import JSNumber JSString JSGlobal NominatimGeocodingService Examples.

(** [getCoordinates] issues one HTTP call and always returns. *)
Lemma getCoordinates_run (http : HttpClient) (q : string) (log : list Call) :
  getCoordinates http q log =
  (Returned (geocoded (http_get http (search_url q) headers)),
   (log ++ [HttpGet (search_url q) headers])%list).
Proof.
  unfold getCoordinates, Task.try_catch, Task.bind, Task.await, Task.ret.
  destruct (http_get http (search_url q) headers) as [[[|r rs]|]|e];
    reflexivity.
Qed.

(** A string that starts with a letter other than [I] has no numeric
    prefix. *)
Lemma parseFloat_word (c : ascii) (s : string) :
  is_alpha c = true -> c <> "I"%char -> parseFloat (String c s) = nan.
Proof.
  intros Ha Hc.
  destruct c as [[] [] [] [] [] [] [] []];
    try discriminate Ha; try (exfalso; apply Hc; reflexivity);
    reflexivity.
Qed.

Example parse_estes_park :
  parseFloat "40.5" = 40.5%float /\ parseFloat "-105.5" = (-105.5)%float.
Proof. split; reflexivity. Qed.

(** C8.  When the HTTP call of the geocoding provider throws, the resolver
    does not throw: it returns [null] after the one call, which is, call
    log included, what it does when the provider answers with an empty
    candidate list or with no list. *)
Theorem provider_failure_is_not_found
    (http http' : HttpClient) (q : string) (e : JSError) :
  http_get http (search_url q) headers = Thrown e ->
  (http_get http' (search_url q) headers = Returned (Some []) \/
   http_get http' (search_url q) headers = Returned None) ->
  Task.run (getCoordinates http q) =
    (Returned None, [HttpGet (search_url q) headers]) /\
  Task.run (getCoordinates http' q) = Task.run (getCoordinates http q).
Proof.
  intros H H'. unfold Task.run. rewrite !getCoordinates_run, H.
  destruct H' as [-> | ->]; split; reflexivity.
Qed.

(** A geocoder that is down, against one that finds nothing. *)
Lemma provider_failure_is_not_found_witness :
  Task.run (getCoordinates failing_http "Estes Park, CO") =
    (Returned None, [HttpGet (search_url "Estes Park, CO") headers]) /\
  Task.run (getCoordinates empty_http "Estes Park, CO") =
    Task.run (getCoordinates failing_http "Estes Park, CO").
Proof.
  apply (provider_failure_is_not_found failing_http empty_http
           "Estes Park, CO" {| message := "fetch failed" |}).
  - reflexivity.
  - left. reflexivity.
Defined.

(** C9, as the specification states it, fails: for a candidate whose
    latitude and longitude are not numbers the resolver raises no error and
    does not return [null]; it returns a result whose coordinates are
    NaN. *)
Lemma unparseable_coordinates_are_returned_as_NaN :
  Task.result (getCoordinates garbled_http "Nowhere") =
    Returned (Some {| latitude := nan; longitude := nan;
                      displayName := "Nowhere" |}) /\
  isNaN nan = true.
Proof. split; reflexivity. Qed.

(** C9, amended.  When the provider succeeds with at least one candidate
    the resolver returns the first candidate's latitude and longitude as
    [parseFloat] reads them, together with its display name.  Nothing is
    checked afterwards: a value that does not start with a number (here, one
    that starts with a letter other than the I of Infinity) is returned as
    NaN, without an error, and is not replaced by 0. *)
Theorem first_candidate_is_parsed_unchecked
    (http : HttpClient) (q : string)
    (place : NominatimPlace) (others : list NominatimPlace) :
  http_get http (search_url q) headers = Returned (Some (place :: others)) ->
  exists r,
    Task.result (getCoordinates http q) = Returned (Some r) /\
    latitude r = parseFloat (lat place) /\
    longitude r = parseFloat (lon place) /\
    displayName r = display_name place /\
    (forall c s, lat place = String c s -> is_alpha c = true ->
                 c <> "I"%char ->
                 latitude r = nan /\ isNaN (latitude r) = true).
Proof.
  intros H. unfold Task.result, Task.run.
  rewrite getCoordinates_run, H. cbn [fst geocoded].
  eexists. split; [reflexivity|]. cbn [latitude longitude displayName].
  do 3 (split; [reflexivity|]).
  intros c s Hs Ha Hc. rewrite Hs, parseFloat_word by assumption.
  split; reflexivity.
Qed.

(** The candidate with latitude "abc" comes back with a NaN latitude. *)
Lemma first_candidate_is_parsed_unchecked_witness :
  exists r,
    Task.result (getCoordinates garbled_http "Nowhere") = Returned (Some r) /\
    longitude r = parseFloat "n/a" /\
    displayName r = "Nowhere" /\
    latitude r = nan /\ isNaN (latitude r) = true.
Proof.
  destruct (first_candidate_is_parsed_unchecked garbled_http "Nowhere"
              garbled_place [] eq_refl) as [r [H1 [_ [H3 [H4 H5]]]]].
  exists r. split; [exact H1|]. split; [exact H3|]. split; [exact H4|].
  apply (H5 "a"%char "bc"); [reflexivity | reflexivity | discriminate].
Defined.

End GeocodingFacts.

(* ===================================================================== *)
(** ** findNearbyRecreation *)
(* ===================================================================== *)

Module RecreationFacts.
Import JSNumber JSString JSGlobal NominatimGeocodingService.
Import RecreationTools Examples JSNumberFacts GeocodingFacts.

(** *** The radius floor *)

Lemma adjustedDistance_below (d : number) :
  lt d 25 = true -> adjustedDistance d = 25%float.
Proof. unfold adjustedDistance. intros ->. reflexivity. Qed.

Lemma adjustedDistance_above (d : number) :
  le 25 d = true -> adjustedDistance d = d.
Proof.
  unfold adjustedDistance. intros H.
  rewrite (ge_not_lt d 25 H). reflexivity.
Qed.

Lemma adjustedDistance_floor (d : number) :
  isNaN d = false -> le 25 (adjustedDistance d) = true.
Proof.
  unfold adjustedDistance. intros H.
  destruct (lt d 25) eqn:E; [reflexivity|].
  apply (not_lt_ge d 25 H); [reflexivity | exact E].
Qed.

(** *** The call log *)

Lemma trails_call_has_no_radius (c : Call) :
  is_trails_call c = true -> facilities_radius c = None.
Proof. destruct c; simpl; discriminate || reflexivity. Qed.

(** The loop over the parks only adds trails calls to the log. *)
Lemma collect_trails_log (recGovService : RecGovService)
    (nearby : list Park) (acc : list Trail) (log : list Call) :
  exists calls,
    snd (collect_trails recGovService nearby acc log) = (log ++ calls)%list /\
    Forall (fun c => facilities_radius c = None) calls.
Proof.
  revert acc log. induction nearby as [|park rest IH]; intros acc log.
  - exists []. split; [symmetry; apply app_nil_r | constructor].
  - cbn [collect_trails].
    destruct (parkCode park) as [code|]; [|apply IH].
    destruct (truthy code); [|apply IH].
    unfold Task.bind, Task.await.
    destruct (getTrailsByPark recGovService code) as [ts|e].
    + destruct (IH (acc ++ ts)%list (log ++ [GetTrailsByPark code])%list)
        as [calls [E F]].
      exists (GetTrailsByPark code :: calls). split.
      * rewrite E, <- app_assoc. reflexivity.
      * constructor; [reflexivity | exact F].
    + exists [GetTrailsByPark code]. split; [reflexivity|].
      repeat constructor.
Qed.

Section Handler.
Variables (npsService : NpsApiService) (recGovService : RecGovService)
          (weatherService : WeatherApiService) (http : HttpClient).
Variables (location : string) (distance : number)
          (activityType : option string) (includeTrails : bool).

Local Abbreviation handler :=
  (findNearbyRecreation npsService recGovService weatherService http
     location distance activityType includeTrails).

(** The handler's calls: the geocoding call, then, when the location is
    found, the facilities call with the adjusted radius, then calls that
    are not facilities calls. *)
Lemma findNearbyRecreation_calls :
  match geocoded (http_get http (search_url location) headers) with
  | None => Task.calls handler = [HttpGet (search_url location) headers]
  | Some c =>
      exists later,
        Task.calls handler =
          HttpGet (search_url location) headers ::
          GetFacilitiesByLocation (latitude c) (longitude c)
            (adjustedDistance distance) :: later /\
        Forall (fun call => facilities_radius call = None) later
  end.
Proof.
  unfold Task.calls, Task.run, findNearbyRecreation,
    Task.try_catch, Task.bind.
  rewrite getCoordinates_run.
  destruct (geocoded _) as [c|]; [|reflexivity].
  unfold Task.await, Task.ret. cbn [app].
  destruct (getFacilitiesByLocation _ _ _ _) as [facs|e];
    [|exists []; split; [reflexivity | constructor]].
  destruct (searchParksByLocation _ _ _ _) as [nearby|e];
    [|eexists; split; [reflexivity | repeat constructor]].
  destruct includeTrails.
  - match goal with |- context [collect_trails ?r ?p ?a ?l] =>
      destruct (collect_trails_log r p a l) as [calls [E F]];
      destruct (collect_trails r p a l) as [[ts|e] log'] end;
      cbn [snd] in E; subst log'.
    + destruct (get7DayForecastByLocation _ _); cbn [app snd];
        (eexists; split; [reflexivity|]);
        (constructor; [reflexivity|]);
        (apply Forall_app; split; [exact F | repeat constructor]).
    + cbn [app snd]. eexists. split; [reflexivity|].
      constructor; [reflexivity | exact F].
  - destruct (get7DayForecastByLocation _ _); cbn [app snd];
      (eexists; split; [reflexivity | repeat constructor]).
Qed.

(** What a report holds: the facilities and trails after the activity
    filter, and the adjusted radius. *)
Lemma findNearbyRecreation_report (r : Recreation) :
  Task.result handler = Returned (Report r) ->
  exists found collected,
    facilities r = filterFacilities activityType found /\
    trails r = filterTrails activityType collected /\
    r_adjustedDistance r = adjustedDistance distance.
Proof.
  unfold Task.result, Task.run, findNearbyRecreation,
    Task.try_catch, Task.bind.
  rewrite getCoordinates_run.
  destruct (geocoded _) as [c|]; [|discriminate].
  unfold Task.await, Task.ret.
  destruct (getFacilitiesByLocation _ _ _ _) as [facs|e]; [|discriminate].
  destruct (searchParksByLocation _ _ _ _) as [nearby|e]; [|discriminate].
  destruct includeTrails.
  - destruct (collect_trails _ _ _ _) as [[ts|e] log']; [|discriminate].
    destruct (get7DayForecastByLocation _ _); [|discriminate].
    cbn [fst]. intros H. injection H as <-. exists facs, ts. auto.
  - destruct (get7DayForecastByLocation _ _); [|discriminate].
    cbn [fst]. intros H. injection H as <-. exists facs, []. auto.
Qed.

(** The handler catches whatever is thrown. *)
Lemma findNearbyRecreation_returns :
  exists response, Task.result handler = Returned response.
Proof.
  unfold Task.result, Task.run, findNearbyRecreation,
    Task.try_catch.
  match goal with |- context [match ?b [] with _ => _ end] =>
    destruct (b []) as [[a|e] log'] end; eexists; reflexivity.
Qed.

End Handler.

(** *** The activity filter for trails *)

Lemma trail_matches_array (activityType : string) (trail : Trail)
    (uses : list string) :
  trailUse trail = UseArray uses ->
  trail_matches activityType trail =
  JSArray.some
    (fun use => includes (toLowerCase use) (toLowerCase activityType)) uses.
Proof. unfold trail_matches. intros ->. reflexivity. Qed.

Lemma trail_matches_fallback (activityType : string) (trail : Trail) :
  isArray (trailUse trail) = false ->
  trail_matches activityType trail = trail_text_matches activityType trail.
Proof.
  unfold trail_matches. intros ->. rewrite andb_false_r. reflexivity.
Qed.

Example empty_use_trail_is_filtered_out :
  trail_text_matches "hiking" trail_empty_use = true /\
  filterTrails (Some "hiking") [trail_empty_use; trail_no_use] =
    [trail_no_use].
Proof. split; reflexivity. Qed.

(** C1, as the specification states it, fails.  With a geocoder that finds
    the location, a parks service that answers with one park and a
    facilities search that throws, the handler returns the error text and
    no report: the parks query is never issued, and there is no parks
    collection in the result. *)
Lemma facilities_failure_discards_the_parks :
  searchParksByLocation nps 40.5 (-105.5) 5 = Returned [romo] /\
  Task.run (findNearbyRecreation nps failing_recGov weather estes_http
              "Estes Park, CO" 50 None true) =
    (Returned (Message "Error finding nearby recreation: RIDB unavailable"),
     [HttpGet
        "https://nominatim.openstreetmap.org/search?q=Estes%20Park%2C%20CO&format=json&limit=1"
        headers;
      GetFacilitiesByLocation 40.5 (-105.5) 50]) /\
  (forall report,
     Task.result (findNearbyRecreation nps failing_recGov weather estes_http
                    "Estes Park, CO" 50 None true) <>
     Returned (Report report)).
Proof. repeat split. discriminate. Qed.

(** C1, amended.  When the location is found and the facilities provider
    throws, the handler does not throw: it returns the one text "Error
    finding nearby recreation: " followed by the error's message, with no
    facilities, parks or trails, and it issues no further query.  When the
    facilities provider answers and the parks provider throws, the result
    is again that error text alone.  A failure of one query so replaces the
    whole result. *)
Theorem provider_failure_becomes_the_error_text
    (npsService : NpsApiService) (recGovService : RecGovService)
    (weatherService : WeatherApiService) (http : HttpClient)
    (location : string) (distance : number)
    (activityType : option string) (includeTrails : bool)
    (place : NominatimPlace) (others : list NominatimPlace) :
  http_get http (search_url location) headers =
    Returned (Some (place :: others)) ->
  let latitude := parseFloat (lat place) in
  let longitude := parseFloat (lon place) in
  let handler :=
    findNearbyRecreation npsService recGovService weatherService http
      location distance activityType includeTrails in
  let facilities_call :=
    GetFacilitiesByLocation latitude longitude (adjustedDistance distance) in
  (forall e,
     getFacilitiesByLocation recGovService latitude longitude
       (adjustedDistance distance) = Thrown e ->
     Task.run handler =
       (Returned (Message ("Error finding nearby recreation: " ++ message e)),
        [HttpGet (search_url location) headers; facilities_call])) /\
  (forall found e,
     getFacilitiesByLocation recGovService latitude longitude
       (adjustedDistance distance) = Returned found ->
     searchParksByLocation npsService latitude longitude 5 = Thrown e ->
     Task.run handler =
       (Returned (Message ("Error finding nearby recreation: " ++ message e)),
        [HttpGet (search_url location) headers; facilities_call;
         SearchParksByLocation latitude longitude 5])).
Proof.
  intros H. cbv zeta.
  unfold Task.run, findNearbyRecreation, Task.try_catch, Task.bind.
  rewrite getCoordinates_run, H. cbn [geocoded latitude longitude].
  unfold Task.await, Task.ret. cbn [app].
  split.
  - intros e ->. reflexivity.
  - intros found e -> ->. reflexivity.
Qed.

(** Estes Park with the facilities search down. *)
Lemma provider_failure_becomes_the_error_text_witness :
  Task.run (findNearbyRecreation nps failing_recGov weather estes_http
              "Estes Park, CO" 50 None true) =
    (Returned (Message "Error finding nearby recreation: RIDB unavailable"),
     [HttpGet (search_url "Estes Park, CO") headers;
      GetFacilitiesByLocation 40.5 (-105.5) 50]).
Proof.
  exact (proj1 (provider_failure_becomes_the_error_text nps failing_recGov
                  weather estes_http "Estes Park, CO" 50 None true
                  estes_park [] eq_refl)
           {| message := "RIDB unavailable" |} eq_refl).
Defined.

(** C5.  Every facilities-by-location query the handler issues has the
    radius [adjustedDistance distance], and the handler issues one, at the
    geocoded coordinates, whenever the location is found.  That radius is
    the larger of the requested one and 25: it is 25 when the request is
    below 25 (for a request of 10 it is 25), the request itself when the
    request is 25 or more, and never below 25 for a request that is a
    number. *)
Theorem facilities_query_radius_is_floored
    (npsService : NpsApiService) (recGovService : RecGovService)
    (weatherService : WeatherApiService) (http : HttpClient)
    (location : string) (distance : number)
    (activityType : option string) (includeTrails : bool) :
  let calls :=
    Task.calls (findNearbyRecreation npsService recGovService weatherService
                  http location distance activityType includeTrails) in
  (forall call r, In call calls -> facilities_radius call = Some r ->
                  r = adjustedDistance distance) /\
  (forall place others,
     http_get http (search_url location) headers =
       Returned (Some (place :: others)) ->
     In (GetFacilitiesByLocation (parseFloat (lat place))
           (parseFloat (lon place)) (adjustedDistance distance)) calls) /\
  (lt distance 25 = true -> adjustedDistance distance = 25%float) /\
  (le 25 distance = true -> adjustedDistance distance = distance) /\
  (isNaN distance = false -> le 25 (adjustedDistance distance) = true) /\
  adjustedDistance 10 = 25%float.
Proof.
  cbv zeta.
  pose proof (findNearbyRecreation_calls npsService recGovService
                weatherService http location distance activityType
                includeTrails) as L.
  split; [|split; [|split; [|split; [|split]]]].
  - intros call r Hin Hr.
    destruct (geocoded _) as [c|].
    + destruct L as [later [E F]]. rewrite E in Hin.
      destruct Hin as [<-|[<-|Hin]].
      * discriminate Hr.
      * injection Hr as <-. reflexivity.
      * rewrite Forall_forall in F. rewrite (F _ Hin) in Hr. discriminate.
    + rewrite L in Hin. destruct Hin as [<-|[]]. discriminate Hr.
  - intros place others H. rewrite H in L. cbn [geocoded] in L.
    destruct L as [later [E _]]. rewrite E. right. left. reflexivity.
  - apply adjustedDistance_below.
  - apply adjustedDistance_above.
  - apply adjustedDistance_floor.
  - reflexivity.
Qed.

(** A request for 10 miles around Estes Park asks for 25. *)
Lemma facilities_query_radius_is_floored_witness :
  In (GetFacilitiesByLocation 40.5 (-105.5) 25)
     (Task.calls (findNearbyRecreation nps recGov weather estes_http
                    "Estes Park, CO" 10 None true)).
Proof.
  exact (proj1 (proj2 (facilities_query_radius_is_floored nps recGov weather
                         estes_http "Estes Park, CO" 10 None true))
           estes_park [] eq_refl).
Defined.

(** C10.  In the trail filter the name-or-description fallback is taken
    only for a trail whose [trailUse] is not an array; for an array the
    answer is whether some entry contains the activity term.  So a trail
    whose [trailUse] is an empty array never matches, whatever its name and
    description say, and no such trail is among the trails of a report made
    with an activity type. *)
Theorem empty_trailUse_array_is_always_excluded
    (activityType : string) (trail : Trail) :
  trailUse trail = UseArray [] ->
  trail_matches activityType trail = false /\
  (forall trails, truthy activityType = true ->
     ~ In trail (filterTrails (Some activityType) trails)) /\
  (forall npsService recGovService weatherService http location distance
          includeTrails r,
     truthy activityType = true ->
     Task.result
       (findNearbyRecreation npsService recGovService weatherService http
          location distance (Some activityType) includeTrails)
       = Returned (Report r) ->
     ~ In trail (trails r)) /\
  (forall other uses,
     trailUse other = UseArray uses ->
     trail_matches activityType other =
     JSArray.some
       (fun use => includes (toLowerCase use) (toLowerCase activityType))
       uses) /\
  (forall other,
     isArray (trailUse other) = false ->
     trail_matches activityType other =
     trail_text_matches activityType other).
Proof.
  intros Hu.
  assert (M : trail_matches activityType trail = false)
    by (rewrite (trail_matches_array _ _ [] Hu); reflexivity).
  assert (F : forall trails, truthy activityType = true ->
                ~ In trail (filterTrails (Some activityType) trails)).
  { intros trails Ht Hin. unfold filterTrails in Hin. rewrite Ht in Hin.
    destruct trails as [|t ts]; [exact Hin|].
    replace (0 <? JSArray.length (t :: ts)) with true in Hin
      by (unfold JSArray.length; symmetry; apply Z.ltb_lt; simpl; lia).
    cbn [andb] in Hin. apply filter_In in Hin. destruct Hin as [_ Hin].
    congruence. }
  split; [exact M|]. split; [exact F|]. split; [|split].
  - intros npsService recGovService weatherService http location distance
      includeTrails r Ht Hr.
    apply findNearbyRecreation_report in Hr.
    destruct Hr as [found [collected [_ [-> _]]]]. apply F. exact Ht.
  - intros other uses. apply trail_matches_array.
  - intros other. apply trail_matches_fallback.
Qed.

(** The "Hiking Loop" trail with an empty [trailUse], asked for hiking. *)
Lemma empty_trailUse_array_is_always_excluded_witness :
  trail_matches "hiking" trail_empty_use = false /\
  ~ In trail_empty_use
       (filterTrails (Some "hiking") [trail_empty_use; trail_no_use]).
Proof.
  destruct (empty_trailUse_array_is_always_excluded "hiking" trail_empty_use
              eq_refl) as [M [F _]].
  split; [exact M | apply F; reflexivity].
Defined.

End RecreationFacts.

(* ===================================================================== *)
(** ** findParks *)
(* ===================================================================== *)

Module SearchFacts.
Import JSString SearchTools Examples.

Lemma truthy_nonempty (a : string) : a <> "" -> truthy a = true.
Proof. destruct a; [congruence | reflexivity]. Qed.

(** The activity branch: one call, then the local slice. *)
Lemma selectParks_activity (npsService : NpsApiService) (a : string)
    (limit start : Z) :
  a <> "" ->
  Task.run (selectParks npsService None None (Some a) limit start) =
  match getParksByActivity npsService a with
  | Returned parks =>
      (Returned (JSArray.slice parks start
                   (Z.min (JSArray.length parks) (start + limit))),
       [GetParksByActivity a])
  | Thrown e => (Thrown e, [GetParksByActivity a])
  end.
Proof.
  intros Ha. unfold Task.run, selectParks. cbn [defined orb].
  rewrite (truthy_nonempty a Ha).
  unfold Task.bind, Task.await, Task.ret. cbn [app].
  destruct (getParksByActivity npsService a); reflexivity.
Qed.

Example findParks_hiking_page_three :
  Task.run (findParks nps None None (Some "hiking") 5 10) =
    (Returned (Report {| found := [park_of_code "chis"; park_of_code "cong"];
                         pr_start := 10; pr_limit := 5 |}),
     [GetParksByActivity "hiking"]).
Proof. reflexivity. Qed.

Example findParks_hiking_past_the_end :
  Task.run (findParks nps None None (Some "hiking") 5 12) =
    (Returned (Message "No parks found matching your criteria."),
     [GetParksByActivity "hiking"]).
Proof. reflexivity. Qed.

(** C6, as the specification states it, fails: no one reading of "present"
    fits both rules.  An activity that is given as the empty string does
    not select the activity search: the handler asks for the plain listing,
    and the activity-filtered set the provider has is never fetched.  A
    [q] that is given as the empty string does select the combined search,
    ahead of a proper activity. *)
Lemma presence_differs_between_q_and_activity :
  getParksByActivity nps "" = Returned twelve_parks /\
  Task.run (selectParks nps None None (Some "") 10 0) =
    (Returned [romo], [GetParks 10 0]) /\
  Task.run (findParks nps None None (Some "") 10 0) =
    (Returned (Report {| found := [romo]; pr_start := 0; pr_limit := 10 |}),
     [GetParks 10 0]) /\
  Task.run (selectParks nps (Some "") None (Some "hiking") 10 0) =
    (Returned [romo], [SearchParks (Some "") None 10 0]).
Proof. repeat split. Qed.

(** C6, amended.  [findParks] selects one provider query, the first rule
    that applies, and never combines criteria.  (1) If [q] or [stateCode]
    is given, be it as the empty string, it is the combined search with
    [limit] and [start] passed through, whatever the activity.
    (2) Otherwise, if the activity is given and is not the empty string, it
    is the activity search, whose whole answer is then sliced locally: for
    non-negative [start] and [limit] the slice is the items at the indices
    from [start] up to but not including [start + limit], it is empty when
    [start] is at or past the end, and the handler then answers that no
    parks were found, not with an error.  (3) Otherwise (no activity, or
    the empty string) it is the plain listing with [limit] and [start]
    passed through.  Of twelve parks found for an activity, [limit = 5] and
    [start = 10] give the two at indices 10 and 11. *)
Theorem findParks_dispatches_by_priority
    (npsService : NpsApiService) (q stateCode activity : option string)
    (limit start : Z) :
  let select := selectParks npsService q stateCode activity limit start in
  ((q <> None \/ stateCode <> None) ->
     select = Task.await (SearchParks q stateCode limit start)
                (searchParks npsService q stateCode limit start)) /\
  (forall a parks,
     q = None -> stateCode = None -> activity = Some a -> a <> "" ->
     getParksByActivity npsService a = Returned parks ->
     0 <= start -> 0 <= limit ->
     Task.run select =
       (Returned (firstn (Z.to_nat limit) (skipn (Z.to_nat start) parks)),
        [GetParksByActivity a]) /\
     (JSArray.length parks <= start ->
      Task.run (findParks npsService q stateCode activity limit start) =
        (Returned (Message "No parks found matching your criteria."),
         [GetParksByActivity a]))) /\
  (q = None -> stateCode = None ->
   (activity = None \/ activity = Some "") ->
     select = Task.await (GetParks limit start)
                (getParks npsService limit start)) /\
  (forall a,
     a <> "" -> getParksByActivity npsService a = Returned twelve_parks ->
     Task.result (selectParks npsService None None (Some a) 5 10) =
       Returned [nth 10 twelve_parks romo; nth 11 twelve_parks romo]).
Proof.
  cbv zeta. split; [|split; [|split]].
  - unfold selectParks. intros [H|H].
    + destruct q; [reflexivity | congruence].
    + destruct stateCode; [|congruence]. rewrite orb_true_r. reflexivity.
  - intros a parks -> -> -> Ha Hp Hs Hl.
    assert (E : Task.run (selectParks npsService None None (Some a) limit start)
                = (Returned (firstn (Z.to_nat limit)
                               (skipn (Z.to_nat start) parks)),
                   [GetParksByActivity a])).
    { rewrite (selectParks_activity npsService a limit start Ha), Hp.
      rewrite JSArrayFacts.slice_nonneg by assumption. reflexivity. }
    split; [exact E|].
    intros Hout. unfold Task.run in *.
    unfold findParks, Task.try_catch, Task.bind. rewrite E.
    rewrite skipn_all2 by (unfold JSArray.length in Hout; lia).
    rewrite firstn_nil. reflexivity.
  - unfold selectParks. intros -> -> [-> | ->]; reflexivity.
  - intros a Ha Hp. unfold Task.result.
    rewrite (selectParks_activity npsService a 5 10 Ha), Hp. reflexivity.
Qed.

(** The third page of five of the twelve hiking parks, and a search by
    text that leaves the activity aside. *)
Lemma findParks_dispatches_by_priority_witness :
  Task.run (selectParks nps None None (Some "hiking") 5 10) =
    (Returned [park_of_code "chis"; park_of_code "cong"],
     [GetParksByActivity "hiking"]) /\
  selectParks nps (Some "canyon") None (Some "hiking") 5 10 =
    Task.await (SearchParks (Some "canyon") None 5 10)
      (searchParks nps (Some "canyon") None 5 10).
Proof.
  split.
  - refine (proj1 (proj1 (proj2 (findParks_dispatches_by_priority nps None
                                   None (Some "hiking") 5 10))
                     "hiking" twelve_parks eq_refl eq_refl eq_refl _ eq_refl
                     _ _)).
    + discriminate.
    + discriminate.
    + discriminate.
  - refine (proj1 (findParks_dispatches_by_priority nps (Some "canyon") None
                     (Some "hiking") 5 10) _).
    left. discriminate.
Defined.

End SearchFacts.

(* ===================================================================== *)
(** ** More on the geocoding service *)
(* ===================================================================== *)

Module GeocodingMore.
Import JSString JSGlobal NominatimGeocodingService Reading Examples.
Import GeocodingFacts.

Lemma hex_digit_unreserved (n : N) :
  (n < 16)%N -> is_unreserved (hex_digit n) = true.
Proof.
  intros H.
  assert (E : In n [0;1;2;3;4;5;6;7;8;9;10;11;12;13;14;15]%N).
  { cbn [In]. lia. }
  cbn [In] in E.
  repeat (destruct E as [<-|E]; [reflexivity|]). destruct E.
Qed.

Lemma unhex_hex_digit (n : N) : (n < 16)%N -> unhex (hex_digit n) = n.
Proof.
  intros H.
  assert (E : In n [0;1;2;3;4;5;6;7;8;9;10;11;12;13;14;15]%N).
  { cbn [In]. lia. }
  cbn [In] in E.
  repeat (destruct E as [<-|E]; [reflexivity|]). destruct E.
Qed.

Lemma code_lt_256 (c : ascii) : (code c < 256)%N.
Proof. apply N_ascii_bounded. Qed.

Lemma encodeURIComponent_safe (s : string) :
  string_forall url_safe (encodeURIComponent s) = true.
Proof.
  induction s as [|c s IH]; [reflexivity|].
  cbn [encodeURIComponent]. destruct (is_unreserved c) eqn:U.
  - cbn [string_forall]. unfold url_safe at 1. rewrite U, IH. reflexivity.
  - cbn [string_forall]. rewrite IH.
    unfold url_safe.
    rewrite !hex_digit_unreserved.
    + reflexivity.
    + apply N.mod_lt. discriminate.
    + pose proof (code_lt_256 c).
      apply N.Div0.div_lt_upper_bound. lia.
Qed.

Lemma includes_char (p : ascii -> bool) (s : string) (c : ascii) :
  string_forall p s = true -> includes s (String c "") = true -> p c = true.
Proof.
  induction s as [|d s IH]; cbn [string_forall includes startsWith].
  - discriminate.
  - rewrite andb_true_iff, orb_true_iff. intros [Hd Hs] [H|H].
    + apply andb_true_iff in H. destruct H as [H _].
      apply Ascii.eqb_eq in H. subst. exact Hd.
    + apply IH; assumption.
Qed.

(** X1.  Whatever the location text, the query part that [getCoordinates]
    puts in the URL holds only letters, digits, the marks [- _ . ! ~ * ' ( )]
    and the percent sign of the escapes.  So it holds no ampersand, equals
    sign, question mark, number sign, slash or space: the text cannot add to
    or cut short the parameters [format=json] and [limit=1] that follow
    it. *)
Theorem geocoding_query_is_url_safe (locationQuery : string) :
  search_url locationQuery =
    ("https://nominatim.openstreetmap.org/search?q=" ++
     encodeURIComponent locationQuery ++ "&format=json&limit=1")%string /\
  string_forall url_safe (encodeURIComponent locationQuery) = true /\
  Forall (fun c => includes (encodeURIComponent locationQuery)
                     (String c "") = false)
         ["&"; "="; "?"; "#"; "/"; " "]%char.
Proof.
  split; [reflexivity|]. split; [apply encodeURIComponent_safe|].
  repeat constructor;
    match goal with |- includes ?s ?k = false =>
      destruct (includes s k) eqn:E; [|reflexivity];
      apply (includes_char url_safe) in E;
      [discriminate E | apply encodeURIComponent_safe]
    end.
Qed.

Lemma string_length_app (a b : string) :
  String.length (a ++ b) = (String.length a + String.length b)%nat.
Proof. induction a as [|c a IH]; simpl; [|rewrite IH]; reflexivity. Qed.

Lemma encoded_pair_injective (c d : ascii) :
  hex_digit (code c / 16) = hex_digit (code d / 16) ->
  hex_digit (code c mod 16) = hex_digit (code d mod 16) ->
  c = d.
Proof.
  intros Hhi Hlo.
  pose proof (code_lt_256 c) as Bc. pose proof (code_lt_256 d) as Bd.
  apply (f_equal unhex) in Hhi, Hlo.
  rewrite !unhex_hex_digit in Hhi, Hlo;
    try (apply N.mod_lt; discriminate);
    try (apply N.Div0.div_lt_upper_bound; lia).
  assert (E : code c = code d).
  { rewrite (N.div_mod (code c) 16), (N.div_mod (code d) 16) by discriminate.
    rewrite Hhi, Hlo. reflexivity. }
  unfold code in E.
  rewrite <- (ascii_N_embedding c), <- (ascii_N_embedding d), E.
  reflexivity.
Qed.

Lemma encodeURIComponent_injective (a b : string) :
  encodeURIComponent a = encodeURIComponent b -> a = b.
Proof.
  revert b. induction a as [|c a IH]; intros [|d b]; cbn [encodeURIComponent].
  - reflexivity.
  - destruct (is_unreserved d); discriminate.
  - destruct (is_unreserved c); discriminate.
  - destruct (is_unreserved c) eqn:Uc, (is_unreserved d) eqn:Ud; intros H.
    + injection H as -> H. f_equal. apply IH. exact H.
    + injection H as -> _. discriminate Uc.
    + injection H as <- _. discriminate Ud.
    + injection H as Hhi Hlo H.
      rewrite (encoded_pair_injective c d Hhi Hlo). f_equal.
      apply IH. exact H.
Qed.

Lemma append_cancel_r (a b suffix : string) :
  (a ++ suffix = b ++ suffix)%string -> a = b.
Proof.
  revert b. induction a as [|c a IH]; intros [|d b] H; cbn [append] in H.
  - reflexivity.
  - exfalso. apply (f_equal String.length) in H. simpl in H.
    rewrite string_length_app in H. lia.
  - exfalso. apply (f_equal String.length) in H. simpl in H.
    rewrite string_length_app in H. lia.
  - injection H as -> H. f_equal. apply IH. exact H.
Qed.

(** X2.  Two location texts that differ are sent as different requests:
    [encodeURIComponent] loses nothing of the text, and neither does the
    search URL built around it. *)
Theorem distinct_locations_have_distinct_urls (s t : string) :
  s <> t ->
  encodeURIComponent s <> encodeURIComponent t /\
  search_url s <> search_url t.
Proof.
  intros Hst. split; intros H; apply Hst.
  - apply encodeURIComponent_injective. exact H.
  - apply encodeURIComponent_injective.
    unfold search_url, baseUrl in H. cbn [append] in H.
    repeat match type of H with String _ _ = String _ _ =>
      injection H as H end.
    apply (append_cancel_r _ _ _ H).
Qed.

(** "Estes Park" with and without a space after it. *)
Lemma distinct_locations_have_distinct_urls_witness :
  encodeURIComponent "Estes Park" <> encodeURIComponent "Estes Park " /\
  search_url "Estes Park" <> search_url "Estes Park ".
Proof.
  apply (distinct_locations_have_distinct_urls "Estes Park" "Estes Park ").
  discriminate.
Defined.



End GeocodingMore.

(* ===================================================================== *)
(** ** More on findNearbyRecreation *)
(* ===================================================================== *)

Module RecreationMore.
Import JSNumber JSString JSGlobal NominatimGeocodingService.
Import RecreationTools Reading Examples MoreExamples.
Import JSStringFacts GeocodingFacts.

(** X4.  When the location cannot be geocoded the handler answers that it
    could not identify the location, and asks nothing of the recreation,
    parks and weather services: the geocoding request is its only call. *)
Theorem unresolved_location_stops_the_search
    (npsService : NpsApiService) (recGovService : RecGovService)
    (weatherService : WeatherApiService) (http : HttpClient)
    (location : string) (distance : number)
    (activityType : option string) (includeTrails : bool) :
  Task.result (getCoordinates http location) = Returned None ->
  Task.run (findNearbyRecreation npsService recGovService weatherService
              http location distance activityType includeTrails) =
    (Returned (Message
       ("Could not identify the location: " ++ location ++
        ". Please try a more specific location name or provide coordinates.")),
     [HttpGet (search_url location) headers]).
Proof.
  unfold Task.result, Task.run. rewrite getCoordinates_run. cbn [fst].
  intros H. injection H as H.
  unfold findNearbyRecreation, Task.try_catch, Task.bind.
  rewrite getCoordinates_run, H. reflexivity.
Qed.

(** A geocoder that is down. *)
Lemma unresolved_location_stops_the_search_witness :
  Task.run (findNearbyRecreation nps recGov weather failing_http
              "Estes Park, CO" 50 (Some "hiking") true) =
    (Returned (Message
       "Could not identify the location: Estes Park, CO. Please try a more specific location name or provide coordinates."),
     [HttpGet (search_url "Estes Park, CO") headers]).
Proof.
  apply (unresolved_location_stops_the_search nps recGov weather failing_http
           "Estes Park, CO" 50 (Some "hiking") true).
  reflexivity.
Defined.











(** X7.  The weather forecast is the handler's last call, and the report
    depends on it: if that call throws, the handler returns a text and no
    report, whatever the facilities, parks and trails calls returned; if it
    returns nothing ([null]), the report is made, with no forecast. *)
Theorem weather_failure_discards_the_report
    (npsService : NpsApiService) (recGovService : RecGovService)
    (weatherService : WeatherApiService) (http : HttpClient)
    (location : string) (distance : number)
    (activityType : option string) (includeTrails : bool) (e : JSError) :
  get7DayForecastByLocation weatherService location = Thrown e ->
  (forall report,
     Task.result (findNearbyRecreation npsService recGovService
                    weatherService http location distance activityType
                    includeTrails) <> Returned (Report report)) /\
  (forall c found nearby,
     Task.result (getCoordinates http location) = Returned (Some c) ->
     getFacilitiesByLocation recGovService (latitude c) (longitude c)
       (adjustedDistance distance) = Returned found ->
     searchParksByLocation npsService (latitude c) (longitude c) 5 =
       Returned nearby ->
     Task.result (findNearbyRecreation npsService recGovService
                    weatherService http location distance activityType
                    false) =
       Returned (Message
         ("Error finding nearby recreation: " ++ message e))).
Proof.
  intros Hw. split.
  - intros report.
    unfold Task.result, Task.run, findNearbyRecreation, Task.try_catch,
      Task.bind.
    rewrite getCoordinates_run.
    destruct (geocoded _) as [c|]; [|discriminate].
    unfold Task.await, Task.ret.
    destruct (getFacilitiesByLocation _ _ _ _); [|discriminate].
    destruct (searchParksByLocation _ _ _ _); [|discriminate].
    destruct includeTrails.
    + destruct (collect_trails _ _ _ _) as [[ts|e'] log']; [|discriminate].
      rewrite Hw. discriminate.
    + rewrite Hw. discriminate.
  - intros c found nearby Hc Hf Hp.
    unfold Task.result, Task.run in *. rewrite getCoordinates_run in Hc.
    cbn [fst] in Hc. injection Hc as Hc.
    unfold findNearbyRecreation, Task.try_catch, Task.bind.
    rewrite getCoordinates_run, Hc. unfold Task.await, Task.ret.
    rewrite Hf, Hp, Hw. reflexivity.
Qed.

(** Everything found around Estes Park, and the weather service down. *)
Lemma weather_failure_discards_the_report_witness :
  Task.result (findNearbyRecreation nps recGov failing_weather estes_http
                 "Estes Park, CO" 50 None false) =
    Returned (Message "Error finding nearby recreation: weather unavailable").
Proof.
  exact (proj2 (weather_failure_discards_the_report nps recGov
                  failing_weather estes_http "Estes Park, CO" 50 None false
                  {| message := "weather unavailable" |} eq_refl)
           {| latitude := 40.5; longitude := (-105.5);
              displayName := "Estes Park, Larimer County, Colorado" |}
           [] [romo] eq_refl eq_refl eq_refl).
Defined.

End RecreationMore.

(* ===================================================================== *)
(** ** More on planParkVisit and findParks *)
(* ===================================================================== *)

Module PlanningMore.
Import JSNumber JSString Scorer PlanningTools SearchTools.
Import Examples MoreExamples JSArrayFacts ScorerFacts.

Section PlanParkVisit.
Variables (npsService : NpsApiService) (weatherService : WeatherApiService).
Variables (parkCode : string) (startDate endDate : option string).

Local Abbreviation handler :=
  (planParkVisit npsService weatherService parkCode startDate endDate).

(** The run of the handler, by what its calls do. *)
Lemma planParkVisit_run :
  Task.run handler =
  match getParkById npsService parkCode with
  | Thrown e =>
      (Returned (Message ("Error planning park visit: " ++ message e)),
       [GetParkById parkCode])
  | Returned None =>
      (Returned (Message ("Could not find park with code: " ++ parkCode)),
       [GetParkById parkCode])
  | Returned (Some park) =>
      match getAlertsByPark npsService parkCode with
      | Thrown e =>
          (Returned (Message ("Error planning park visit: " ++ message e)),
           [GetParkById parkCode; GetAlertsByPark parkCode])
      | Returned alerts =>
          match get7DayForecastByLocation weatherService (park_name park) with
          | Thrown e =>
              (Returned
                 (Message ("Error planning park visit: " ++ message e)),
               [GetParkById parkCode; GetAlertsByPark parkCode;
                Get7DayForecastByLocation (park_name park)])
          | Returned forecast =>
              match getDetailedForecast weatherService (park_name park) with
              | Thrown e =>
                  (Returned
                     (Message ("Error planning park visit: " ++ message e)),
                   [GetParkById parkCode; GetAlertsByPark parkCode;
                    Get7DayForecastByLocation (park_name park);
                    GetDetailedForecast (park_name park)])
              | Returned detailedForecast =>
                  (Returned (Report
                     {| vp_park := park;
                        vp_closureAlerts := closureAlerts alerts;
                        vp_forecast := forecast;
                        vp_recommended :=
                          JSArray.slice (rankDays detailedForecast) 0 3;
                        vp_trip := (startDate, endDate) |}),
                   [GetParkById parkCode; GetAlertsByPark parkCode;
                    Get7DayForecastByLocation (park_name park);
                    GetDetailedForecast (park_name park)])
              end
          end
      end
  end.
Proof.
  unfold Task.run, planParkVisit, Task.try_catch, Task.bind, Task.await,
    Task.ret.
  destruct (getParkById npsService parkCode) as [[park|]|e];
    try reflexivity.
  destruct (getAlertsByPark npsService parkCode) as [alerts|e];
    [|reflexivity].
  destruct (get7DayForecastByLocation _ _) as [forecast|e]; [|reflexivity].
  destruct (getDetailedForecast _ _) as [detailed|e]; reflexivity.
Qed.

End PlanParkVisit.

Lemma slice_prefix {A : Type} (l : list A) (n : Z) :
  0 <= n -> JSArray.slice l 0 n = firstn (Z.to_nat n) l.
Proof.
  intros Hn. unfold JSArray.slice, JSArray.relative_index, JSArray.length.
  cbn [Z.ltb Z.compare].
  destruct (n <? 0) eqn:E; [apply Z.ltb_lt in E; lia|].
  replace (Z.min 0 (Z.of_nat (List.length l))) with 0 by lia.
  cbn [Z.to_nat skipn]. rewrite Z.sub_0_r.
  destruct (Z.le_gt_cases n (Z.of_nat (List.length l))).
  - f_equal. lia.
  - rewrite !firstn_all2 by lia. reflexivity.
Qed.

Lemma StronglySorted_app_order {A : Type} (R : A -> A -> Prop)
    (l1 l2 : list A) :
  StronglySorted R (l1 ++ l2) ->
  forall a b, In a l1 -> In b l2 -> R a b.
Proof.
  induction l1 as [|x l1 IH]; intros H a b Ha Hb; [destruct Ha|].
  cbn [app] in H. apply StronglySorted_inv in H. destruct H as [H F].
  destruct Ha as [<-|Ha].
  - rewrite Forall_forall in F. apply F. apply in_or_app. right. exact Hb.
  - apply (IH H a b Ha Hb).
Qed.

Lemma rankDays_sorted (detailedForecast : option (list ForecastDay)) :
  StronglySorted (fun a b => score b <= score a) (rankDays detailedForecast).
Proof.
  unfold rankDays.
  apply (StronglySorted_weaken (fun a b => by_score a b <= 0)).
  - unfold by_score. intros a b H. lia.
  - apply sort_sorted; [exact by_score_total | exact by_score_trans].
Qed.

(** X8.  For a park code the parks service does not know ([getParkById]
    returns [null]) the handler answers "Could not find park with code: "
    and the code, and asks for no alerts and no weather: the lookup is its
    only call. *)
Theorem unknown_park_stops_the_plan
    (npsService : NpsApiService) (weatherService : WeatherApiService)
    (parkCode : string) (startDate endDate : option string) :
  getParkById npsService parkCode = Returned None ->
  Task.run (planParkVisit npsService weatherService parkCode
              startDate endDate) =
    (Returned (Message ("Could not find park with code: " ++ parkCode)),
     [GetParkById parkCode]).
Proof. intros H. rewrite planParkVisit_run, H. reflexivity. Qed.

(** A parks service that knows no park. *)
Lemma unknown_park_stops_the_plan_witness :
  Task.run (planParkVisit nps_without_parks weather "zzzz" None None) =
    (Returned (Message "Could not find park with code: zzzz"),
     [GetParkById "zzzz"]).
Proof.
  apply (unknown_park_stops_the_plan nps_without_parks weather "zzzz"
           None None).
  reflexivity.
Defined.

(** X9.  The recommended days of a visit plan are the first three of the
    ranking of the detailed forecast of the park, or all of them when there
    are fewer: no day left out scores higher than a recommended one, and
    with no detailed forecast there is no recommendation. *)
Theorem recommended_days_are_the_top_three
    (npsService : NpsApiService) (weatherService : WeatherApiService)
    (parkCode : string) (startDate endDate : option string)
    (plan : VisitPlan) :
  Task.result (planParkVisit npsService weatherService parkCode
                 startDate endDate) = Returned (Report plan) ->
  exists detailedForecast others,
    getDetailedForecast weatherService (park_name (vp_park plan)) =
      Returned detailedForecast /\
    rankDays detailedForecast = (vp_recommended plan ++ others)%list /\
    JSArray.length (vp_recommended plan) =
      Z.min 3 (JSArray.length (scoreDays detailedForecast)) /\
    (forall r d, In r (vp_recommended plan) -> In d others ->
                 score d <= score r) /\
    (detailedForecast = None -> vp_recommended plan = []).
Proof.
  unfold Task.result. rewrite planParkVisit_run.
  destruct (getParkById npsService parkCode) as [[park|]|e];
    try discriminate.
  destruct (getAlertsByPark npsService parkCode) as [alerts|e];
    [|discriminate].
  destruct (get7DayForecastByLocation _ _) as [forecast|e]; [|discriminate].
  destruct (getDetailedForecast _ _) as [detailed|e] eqn:D; [|discriminate].
  cbn [fst]. intros H. injection H as <-. cbn [vp_park vp_recommended].
  exists detailed, (skipn 3 (rankDays detailed)).
  rewrite slice_prefix by lia. change (Z.to_nat 3) with 3%nat.
  split; [exact D|]. split; [symmetry; apply firstn_skipn|].
  split; [|split].
  - unfold JSArray.length. rewrite length_firstn.
    pose proof (Permutation_length
                  (sort_perm by_score (scoreDays detailed))) as P.
    unfold rankDays. rewrite <- P. lia.
  - intros r d Hr Hd.
    pose proof (rankDays_sorted detailed) as S.
    rewrite <- (firstn_skipn 3 (rankDays detailed)) in S.
    apply (StronglySorted_app_order _ _ _ S r d Hr Hd).
  - intros ->. reflexivity.
Qed.

(** A park whose detailed forecast has four days: the three best are
    recommended and the snowy day of June 3 is left out. *)
Lemma recommended_days_are_the_top_three_witness :
  exists detailedForecast others,
    getDetailedForecast four_day_weather "yose" = Returned detailedForecast /\
    rankDays detailedForecast =
      ([scored_day sunny_day; scored_day sunny_day_no_rain_chance;
        scored_day snowy_day] ++ others)%list /\
    others = [scored_day snowy_day_later].
Proof.
  destruct (recommended_days_are_the_top_three nps four_day_weather "yose"
              None None
              {| vp_park := park_of_code "yose";
                 vp_closureAlerts := [];
                 vp_forecast := None;
                 vp_recommended :=
                   [scored_day sunny_day;
                    scored_day sunny_day_no_rain_chance;
                    scored_day snowy_day];
                 vp_trip := (None, None) |} eq_refl)
    as [detailed [others [D [R _]]]].
  exists detailed, others. split; [exact D|]. split; [exact R|].
  cbn in D. injection D as <-.
  apply (app_inv_head _ _ _ (eq_sym R)).
Defined.

(** X10.  [planParkVisit] never throws.  It asks, in this order, for the
    park by its code, the alerts by the code, and the 7-day and the detailed
    forecast by the park's name; when one of the four calls throws it asks
    nothing further and returns "Error planning park visit: " and the
    error's message. *)
Theorem planParkVisit_stops_at_the_first_failure
    (npsService : NpsApiService) (weatherService : WeatherApiService)
    (parkCode : string) (startDate endDate : option string) :
  let handler :=
    planParkVisit npsService weatherService parkCode startDate endDate in
  (exists response, Task.result handler = Returned response) /\
  (forall plan,
     Task.result handler = Returned (Report plan) ->
     Task.calls handler =
       [GetParkById parkCode; GetAlertsByPark parkCode;
        Get7DayForecastByLocation (park_name (vp_park plan));
        GetDetailedForecast (park_name (vp_park plan))]) /\
  (forall park e,
     getParkById npsService parkCode = Returned (Some park) ->
     getAlertsByPark npsService parkCode = Thrown e ->
     Task.run handler =
       (Returned (Message ("Error planning park visit: " ++ message e)),
        [GetParkById parkCode; GetAlertsByPark parkCode])) /\
  (forall park alerts forecast e,
     getParkById npsService parkCode = Returned (Some park) ->
     getAlertsByPark npsService parkCode = Returned alerts ->
     get7DayForecastByLocation weatherService (park_name park) =
       Returned forecast ->
     getDetailedForecast weatherService (park_name park) = Thrown e ->
     Task.run handler =
       (Returned (Message ("Error planning park visit: " ++ message e)),
        [GetParkById parkCode; GetAlertsByPark parkCode;
         Get7DayForecastByLocation (park_name park);
         GetDetailedForecast (park_name park)])).
Proof.
  cbv zeta. unfold Task.result, Task.calls.
  split; [|split; [|split]].
  - rewrite planParkVisit_run.
    destruct (getParkById npsService parkCode) as [[park|]|e];
      try (eexists; reflexivity).
    destruct (getAlertsByPark npsService parkCode) as [alerts|e];
      [|eexists; reflexivity].
    destruct (get7DayForecastByLocation _ _) as [forecast|e];
      [|eexists; reflexivity].
    destruct (getDetailedForecast _ _) as [detailed|e]; eexists; reflexivity.
  - intros plan. rewrite planParkVisit_run.
    destruct (getParkById npsService parkCode) as [[park|]|e];
      try discriminate.
    destruct (getAlertsByPark npsService parkCode) as [alerts|e];
      [|discriminate].
    destruct (get7DayForecastByLocation _ _) as [forecast|e]; [|discriminate].
    destruct (getDetailedForecast _ _) as [detailed|e]; [|discriminate].
    cbn [fst snd]. intros H. injection H as <-. reflexivity.
  - intros park e Hp Ha. rewrite planParkVisit_run, Hp, Ha. reflexivity.
  - intros park alerts forecast e Hp Ha Hf Hd.
    rewrite planParkVisit_run, Hp, Ha, Hf, Hd. reflexivity.
Qed.

(** The weather service down: the plan for Yosemite stops at the 7-day
    forecast, and a plan that is made lists its four calls. *)
Lemma planParkVisit_stops_at_the_first_failure_witness :
  Task.calls (planParkVisit nps four_day_weather "yose" None None) =
    [GetParkById "yose"; GetAlertsByPark "yose";
     Get7DayForecastByLocation "yose"; GetDetailedForecast "yose"].
Proof.
  exact (proj1 (proj2 (planParkVisit_stops_at_the_first_failure nps
                         four_day_weather "yose" None None))
           {| vp_park := park_of_code "yose";
              vp_closureAlerts := [];
              vp_forecast := None;
              vp_recommended :=
                [scored_day sunny_day;
                 scored_day sunny_day_no_rain_chance;
                 scored_day snowy_day];
              vp_trip := (None, None) |} eq_refl).
Defined.

(** X11.  [findParks] never throws and asks the parks service exactly one
    thing, whichever criteria are given.  What that call throws comes back
    as "Error finding parks: " and the message; an empty answer comes back
    as "No parks found matching your criteria."; any other answer is
    reported as it is, apart from the local slice of the activity path. *)
Theorem findParks_is_one_query
    (npsService : NpsApiService) (q stateCode activity : option string)
    (limit start : Z) :
  let handler := findParks npsService q stateCode activity limit start in
  let select := selectParks npsService q stateCode activity limit start in
  (exists call, Task.calls handler = [call] /\ Task.calls select = [call]) /\
  (exists response, Task.result handler = Returned response) /\
  (forall e,
     Task.result select = Thrown e ->
     Task.result handler =
       Returned (Message ("Error finding parks: " ++ message e))) /\
  (Task.result select = Returned [] ->
   Task.result handler =
     Returned (Message "No parks found matching your criteria.")) /\
  (forall park others,
     Task.result select = Returned (park :: others) ->
     Task.result handler =
       Returned (Report {| found := park :: others;
                           pr_start := start; pr_limit := limit |})).
Proof.
  cbv zeta. unfold Task.result, Task.calls, Task.run.
  assert (S : exists o call,
            selectParks npsService q stateCode activity limit start [] =
              (o, [call])).
  { unfold selectParks.
    destruct (defined q || defined stateCode);
      [unfold Task.await; do 2 eexists; reflexivity|].
    destruct activity as [a|];
      [|unfold Task.await; do 2 eexists; reflexivity].
    destruct (truthy a); [|unfold Task.await; do 2 eexists; reflexivity].
    unfold Task.bind, Task.await, Task.ret.
    destruct (getParksByActivity npsService a); do 2 eexists; reflexivity. }
  destruct S as [o [call S]].
  unfold findParks, Task.try_catch, Task.bind, Task.ret. rewrite S.
  cbn [fst snd].
  destruct o as [[|p ps]|e]; cbn [fst snd];
    (split; [exists call; split; reflexivity|]);
    (split; [eexists; reflexivity|]);
    (split; [intros e' H; try discriminate H; injection H as <-; reflexivity|]);
    (split; [intros H; try discriminate H; reflexivity|]);
    intros park others H; try discriminate H; injection H as <- <-;
    reflexivity.
Qed.

(** A parks service whose every query throws, asked by state. *)
Lemma findParks_is_one_query_witness :
  Task.result (findParks failing_nps None (Some "CO") None 10 0) =
    Returned (Message "Error finding parks: NPS API unavailable").
Proof.
  exact (proj1 (proj2 (proj2 (findParks_is_one_query failing_nps None
                                (Some "CO") None 10 0)))
           {| message := "NPS API unavailable" |} eq_refl).
Defined.

End PlanningMore.

(* ===================================================================== *)
(** ** More on the weather scoring *)
(* ===================================================================== *)

Module ScorerMore.
Import JSNumber JSString Scorer PlanningTools Examples.
Import JSNumberFacts ScorerFacts.

Ltac compare_cases :=
  repeat match goal with
  | |- context [Z.compare ?a ?b] => destruct (Z.compare_spec a b)
  | |- context [Pos.compare ?a ?b] => destruct (Pos.compare_spec a b)
  end.

(** The IEEE order is transitive, through its specification. *)
Lemma SFleb_SFltb_trans (x y z : spec_float) :
  SFleb x y = true -> SFltb y z = true -> SFltb x z = true.
Proof.
  unfold SFleb, SFltb.
  destruct x as [sx|sx| |sx mx ex], y as [sy|sy| |sy my ey],
           z as [sz|sz| |sz mz ez]; simpl;
    try discriminate;
    try destruct sx; try destruct sy; try destruct sz; simpl;
    try discriminate; try reflexivity;
    rewrite ?Pos.compare_cont_spec; unfold Pos.switch_Eq;
    compare_cases; subst; simpl; intros;
    try discriminate; try reflexivity; lia.
Qed.

Lemma le_lt_trans (a b c : number) :
  le a b = true -> lt b c = true -> lt a c = true.
Proof.
  unfold le, lt. rewrite leb_spec, !ltb_spec. apply SFleb_SFltb_trans.
Qed.

Lemma rain_bucket_antitone (r1 r2 : number) :
  le r1 r2 = true -> rain_bucket r2 <= rain_bucket r1.
Proof.
  intros H. unfold rain_bucket.
  destruct (lt r2 20) eqn:E20;
    [rewrite (le_lt_trans r1 r2 20 H E20); lia|].
  destruct (lt r2 40) eqn:E40.
  { rewrite (le_lt_trans r1 r2 40 H E40). destruct (lt r1 20); lia. }
  destruct (lt r2 60) eqn:E60.
  { rewrite (le_lt_trans r1 r2 60 H E60).
    destruct (lt r1 20), (lt r1 40); lia. }
  destruct (lt r1 20), (lt r1 40), (lt r1 60); lia.
Qed.

Lemma condition_step_monotone (d1 d2 : ForecastDay) (s1 s2 : Z) :
  condition d1 = condition d2 -> s2 <= s1 ->
  condition_step d2 s2 <= condition_step d1 s1.
Proof.
  unfold condition_step. intros -> H.
  destruct (existsb _ goodConditions); lia.
Qed.

(** X12.  Of two forecast days with the same temperatures and condition,
    the one with the lower chance of rain never scores lower; and a day
    whose chance of rain is missing scores no higher than the same day with
    any chance of rain. *)
Theorem less_rain_never_scores_lower (d1 d2 : ForecastDay) (r1 : number) :
  minTempF d1 = minTempF d2 ->
  maxTempF d1 = maxTempF d2 ->
  condition d1 = condition d2 ->
  chanceOfRain d1 = Some r1 ->
  (chanceOfRain d2 = None \/
   exists r2, chanceOfRain d2 = Some r2 /\ le r1 r2 = true) ->
  score_day d2 <= score_day d1.
Proof.
  intros Hmin Hmax Hc H1 H2. unfold score_day.
  apply condition_step_monotone; [exact Hc|].
  rewrite !rain_step_points, !temperature_step_points.
  assert (T : temp_points d1 = temp_points d2).
  { unfold temp_points, avg_temp. rewrite Hmin, Hmax. reflexivity. }
  rewrite T. unfold rain_points. rewrite H1.
  destruct H2 as [-> | [r2 [-> H]]].
  - assert (0 <= rain_bucket r1); [|lia].
    unfold rain_bucket. destruct (lt r1 20), (lt r1 40), (lt r1 60); lia.
  - pose proof (rain_bucket_antitone r1 r2 H). lia.
Qed.

(** The sunny day at 10 percent against the same day at 45 percent. *)
Lemma less_rain_never_scores_lower_witness :
  score_day {| date := "2025-06-04"; minTempF := 70; maxTempF := 78;
               condition := "Sunny"; chanceOfRain := Some 45%float |}
  <= score_day sunny_day.
Proof.
  apply (less_rain_never_scores_lower sunny_day
           {| date := "2025-06-04"; minTempF := 70; maxTempF := 78;
              condition := "Sunny"; chanceOfRain := Some 45%float |}
           10%float); try reflexivity.
  right. exists 45%float. split; reflexivity.
Defined.

End ScorerMore.

(* ===================================================================== *)
(** ** Pages and truncated lists *)
(* ===================================================================== *)

Module PagesMore.
Import JSString SearchTools RecreationTools Rendering Examples MoreExamples.
Import JSArrayFacts SearchFacts.

Lemma slice_from {A : Type} (l : list A) (start count : Z) :
  0 <= start -> 0 <= count ->
  JSArray.slice l start (start + count) =
  firstn (Z.to_nat count) (skipn (Z.to_nat start) l).
Proof.
  intros Hs Hc. unfold JSArray.slice, JSArray.relative_index, JSArray.length.
  destruct (start <? 0) eqn:E1; [apply Z.ltb_lt in E1; lia|].
  destruct (start + count <? 0) eqn:E2; [apply Z.ltb_lt in E2; lia|].
  set (n := Z.of_nat (List.length l)).
  assert (Hn : n = Z.of_nat (List.length l)) by reflexivity.
  destruct (Z.le_gt_cases n start) as [Hout|Hin].
  - replace (Z.min start n) with n by lia.
    rewrite (skipn_all2 (n := Z.to_nat n)) by lia.
    rewrite (skipn_all2 (n := Z.to_nat start)) by lia.
    rewrite !firstn_nil. reflexivity.
  - replace (Z.min start n) with start by lia.
    pose proof (length_skipn (Z.to_nat start) l) as L.
    destruct (Z.le_gt_cases (start + count) n) as [H1|H1].
    + f_equal. lia.
    + rewrite !firstn_all2 by lia. reflexivity.
Qed.

Lemma first_of_firstn {A : Type} (k : Z) (l : list A) :
  0 <= k -> first_of k l = firstn (Z.to_nat k) l.
Proof.
  intros Hk. unfold first_of.
  rewrite <- (Z.add_0_l k) at 1. rewrite slice_from by lia. reflexivity.
Qed.

Lemma first_and_more {A : Type} (k : Z) (l : list A) :
  0 <= k ->
  l = (first_of k l ++ skipn (Z.to_nat k) l)%list /\
  JSArray.length (first_of k l) = Z.min k (JSArray.length l) /\
  JSArray.length (first_of k l) +
    match more_than k l with Some n => n | None => 0 end =
    JSArray.length l /\
  (forall n, more_than k l = Some n <->
             0 < n /\ n = JSArray.length (skipn (Z.to_nat k) l)).
Proof.
  intros Hk. rewrite first_of_firstn by exact Hk.
  unfold more_than, JSArray.length.
  rewrite length_firstn, length_skipn.
  split; [symmetry; apply firstn_skipn|].
  split; [lia|].
  destruct (k <? Z.of_nat (List.length l)) eqn:E.
  - apply Z.ltb_lt in E. split; [lia|].
    intros n. split.
    + intros H. injection H as <-. lia.
    + intros [_ ->]. f_equal. lia.
  - apply Z.ltb_ge in E. split; [lia|].
    intros n. split; [discriminate | lia].
Qed.

(** X13.  Of the facilities and of the trails of a recreation report the
    handler lists the first eight, and the count of its "...and N more"
    line is the number it leaves out: the listed ones and the count account
    for all, and the line is written only when something is left out.  The
    "No Recreation Areas Found" text is written exactly when there is no
    facility, no park and no trail. *)
Theorem eight_are_listed_and_the_rest_counted (r : Recreation) :
  let count (more : option Z) := match more with Some n => n | None => 0 end in
  (facilities r = (shownFacilities r ++ skipn 8 (facilities r))%list /\
   JSArray.length (shownFacilities r) <= 8 /\
   JSArray.length (shownFacilities r) + count (moreFacilities r) =
     JSArray.length (facilities r) /\
   (forall n, moreFacilities r = Some n -> 0 < n)) /\
  (trails r = (shownTrails r ++ skipn 8 (trails r))%list /\
   JSArray.length (shownTrails r) <= 8 /\
   JSArray.length (shownTrails r) + count (moreTrails r) =
     JSArray.length (trails r) /\
   (forall n, moreTrails r = Some n -> 0 < n)) /\
  (foundSomething r = false <->
   facilities r = [] /\ parks r = [] /\ trails r = []).
Proof.
  cbv zeta. unfold shownFacilities, moreFacilities, shownTrails, moreTrails.
  split; [|split].
  - destruct (first_and_more 8 (facilities r)) as [H1 [H2 [H3 H4]]]; [lia|].
    split; [exact H1|]. split; [lia|]. split; [exact H3|].
    intros n H. apply H4 in H. tauto.
  - destruct (first_and_more 8 (trails r)) as [H1 [H2 [H3 H4]]]; [lia|].
    split; [exact H1|]. split; [lia|]. split; [exact H3|].
    intros n H. apply H4 in H. tauto.
  - unfold foundSomething, JSArray.length.
    rewrite !orb_false_iff, !Z.ltb_ge.
    split.
    + intros [[H1 H2] H3].
      destruct (facilities r), (parks r), (trails r);
        cbn [List.length] in *; try lia; auto.
    + intros [-> [-> ->]]. cbn. lia.
Qed.

(** X14.  Consecutive slices of a list join up: the items from [start] up
    to [start + a] followed by those from [start + a] up to [start + a + b]
    are the items from [start] up to [start + a + b].  Cutting the end of a
    slice down to the length of the list, as [findParks] does, changes
    nothing.  So the pages that [findParks] cuts from an activity search,
    and the pages of [getCampgrounds], asked one after the other with the
    [start] of the "more" line, show every item once, in order. *)
Theorem consecutive_pages_join_up {A : Type} (l : list A) (start a b : Z) :
  0 <= start -> 0 <= a -> 0 <= b ->
  ((JSArray.slice l start (start + a) ++
    JSArray.slice l (start + a) (start + a + b))%list =
   JSArray.slice l start (start + (a + b))) /\
  (JSArray.slice l start (Z.min (JSArray.length l) (start + a)) =
   JSArray.slice l start (start + a)).
Proof.
  intros Hs Ha Hb. rewrite slice_nonneg by lia.
  rewrite !slice_from by lia. split; [|reflexivity].
  replace (Z.to_nat (start + a)) with (Z.to_nat a + Z.to_nat start)%nat
    by lia.
  rewrite <- skipn_skipn.
  replace (Z.to_nat (a + b)) with (Z.to_nat a + Z.to_nat b)%nat by lia.
  generalize (skipn (Z.to_nat start) l) as m. intros m.
  generalize (Z.to_nat a) as n. generalize (Z.to_nat b) as k. clear.
  intros k n. revert m. induction n as [|n IH]; intros m.
  - reflexivity.
  - destruct m as [|x m]; cbn [firstn skipn app Nat.add].
    + rewrite firstn_nil. reflexivity.
    + rewrite IH. reflexivity.
Qed.

(** The twelve parks: five from 0 and five from 5 are ten from 0. *)
Lemma consecutive_pages_join_up_witness :
  (JSArray.slice twelve_parks 0 5 ++ JSArray.slice twelve_parks 5 10)%list =
  JSArray.slice twelve_parks 0 10.
Proof.
  apply (proj1 (consecutive_pages_join_up twelve_parks 0 5 5
                  ltac:(lia) ltac:(lia) ltac:(lia))).
Defined.

(** The activity path of [findParks], from the provider's answer. *)
Lemma findParks_activity_run (npsService : NpsApiService) (a : string)
    (limit start : Z) (all : list Park) :
  a <> "" -> getParksByActivity npsService a = Returned all ->
  0 <= start -> 0 <= limit ->
  Task.run (findParks npsService None None (Some a) limit start) =
    (Returned
       (match firstn (Z.to_nat limit) (skipn (Z.to_nat start) all) with
        | [] => Message "No parks found matching your criteria."
        | park :: others =>
            Report {| found := park :: others;
                      pr_start := start; pr_limit := limit |}
        end),
     [GetParksByActivity a]).
Proof.
  intros Ha Hp Hs Hl.
  pose proof (selectParks_activity npsService a limit start Ha) as S.
  rewrite Hp, slice_nonneg in S by assumption.
  unfold Task.run in *.
  unfold findParks, Task.try_catch, Task.bind, Task.ret. rewrite S.
  destruct (firstn _ _); reflexivity.
Qed.

(** X15.  On the activity path of [findParks], for a non-negative [start]
    and a positive [limit], the "To see more results" line is written
    exactly when the page is full, that is when [start + limit] does not
    pass the end of the activity's parks.  So it is never missing when more
    parks follow; and when the page ends exactly at the last park it is
    written all the same, and the search it proposes finds no parks. *)
Theorem more_results_line_on_the_activity_path
    (npsService : NpsApiService) (a : string) (limit start : Z)
    (all : list Park) (r : ParkResults) :
  a <> "" -> getParksByActivity npsService a = Returned all ->
  0 <= start -> 0 < limit ->
  Task.result (findParks npsService None None (Some a) limit start) =
    Returned (Report r) ->
  found r = firstn (Z.to_nat limit) (skipn (Z.to_nat start) all) /\
  (moreResultsStart r = Some (start + limit) <->
   start + limit <= JSArray.length all) /\
  (moreResultsStart r = None <-> JSArray.length all < start + limit) /\
  (start + limit = JSArray.length all ->
   Task.result (findParks npsService None None (Some a) limit
                  (start + limit)) =
     Returned (Message "No parks found matching your criteria.")).
Proof.
  intros Ha Hp Hs Hl. unfold Task.result.
  rewrite (findParks_activity_run npsService a limit start all Ha Hp)
    by lia.
  cbn [fst].
  destruct (firstn _ _) as [|park others] eqn:P; [discriminate|].
  intros H. injection H as <-. cbn [found].
  split; [reflexivity|].
  assert (L : JSArray.length (park :: others) =
              Z.min limit (JSArray.length all - start)).
  { rewrite <- P. unfold JSArray.length.
    rewrite length_firstn, length_skipn.
    assert (start < Z.of_nat (List.length all)).
    { destruct (Z.le_gt_cases (Z.of_nat (List.length all)) start);
        [|lia].
      rewrite skipn_all2, firstn_nil in P by lia. discriminate. }
    lia. }
  unfold moreResultsStart. cbn [found pr_limit pr_start]. rewrite L.
  split; [|split].
  - destruct (limit <=? _) eqn:E;
      [apply Z.leb_le in E | apply Z.leb_gt in E];
      split; intros H; try discriminate; try reflexivity; lia.
  - destruct (limit <=? _) eqn:E;
      [apply Z.leb_le in E | apply Z.leb_gt in E];
      split; intros H; try discriminate; try reflexivity; lia.
  - intros E.
    rewrite (findParks_activity_run npsService a limit (start + limit) all
               Ha Hp) by lia.
    rewrite skipn_all2 by (unfold JSArray.length in E; lia).
    rewrite firstn_nil. reflexivity.
Qed.

(** Twelve hiking parks in pages of six: the second page is full, its
    "more" line proposes [start = 12], and that search finds nothing. *)
Lemma more_results_line_on_the_activity_path_witness :
  moreResultsStart {| found := skipn 6 twelve_parks;
                      pr_start := 6; pr_limit := 6 |} = Some 12 /\
  Task.result (findParks nps None None (Some "hiking") 6 12) =
    Returned (Message "No parks found matching your criteria.").
Proof.
  destruct (more_results_line_on_the_activity_path nps "hiking" 6 6
              twelve_parks
              {| found := skipn 6 twelve_parks;
                 pr_start := 6; pr_limit := 6 |}
              ltac:(discriminate) eq_refl ltac:(lia) ltac:(lia) eq_refl)
    as [_ [H1 [_ H2]]].
  split.
  - apply H1. cbn. lia.
  - apply H2. reflexivity.
Defined.

End PagesMore.

(* ===================================================================== *)
(** ** The park tools and the park weather forecast *)
(* ===================================================================== *)

Module ParkToolsMore.
Import JSString ParkTools WeatherTools Examples MoreExamples ParkExamples.
Import PagesMore.

(** *** getCampgrounds *)

Lemma getCampgrounds_run (services : ParkServices) (parkCode : string)
    (limit start : Z) :
  run (getCampgrounds services parkCode limit start) =
  match parkById services parkCode with
  | Thrown e =>
      (Returned (Message ("Error retrieving campground information: "
                          ++ message e)),
       [ParkById parkCode])
  | Returned None =>
      (Returned (Message ("No park found with code: " ++ parkCode)),
       [ParkById parkCode])
  | Returned (Some park) =>
      match campgroundsByPark services parkCode with
      | Thrown e =>
          (Returned (Message ("Error retrieving campground information: "
                              ++ message e)),
           [ParkById parkCode; CampgroundsByPark parkCode])
      | Returned all =>
          (Returned
             (match JSArray.slice all start (start + limit) with
              | [] => Message ("No campgrounds found in " ++ park_name park
                               ++ " (Park Code: " ++ parkCode ++ ").")
              | c :: cs =>
                  Report {| cp_park := park;
                            totalCount := JSArray.length all;
                            campgrounds := c :: cs;
                            cp_limit := limit;
                            cp_start := start |}
              end),
           [ParkById parkCode; CampgroundsByPark parkCode])
      end
  end.
Proof.
  unfold run, getCampgrounds, try_catch, bind, await, ret.
  destruct (parkById services parkCode) as [[park|]|e]; try reflexivity.
  destruct (campgroundsByPark services parkCode) as [all|e];
    [|reflexivity].
  cbn [app].
  destruct (JSArray.slice all start (start + limit)); reflexivity.
Qed.

(** X16.  [getCampgrounds] looks the park up first and, for an unknown
    park code, answers "No park found" without asking for campgrounds.  For
    a known park, a non-negative [start] and a positive [limit]: the page
    holds the campgrounds at the indices from [start] up to [start + limit];
    the number in a campground's heading is its position in the park's
    whole list, counted from 1; the "To see more campgrounds" line is
    written exactly when a campground follows the page; and a [start] at or
    past the end gets the answer "No campgrounds found", whether or not the
    park has campgrounds. *)
Theorem campgrounds_are_paged_by_position
    (services : ParkServices) (parkCode : string) (limit start : Z)
    (all : list Campground) :
  campgroundsByPark services parkCode = Returned all ->
  0 <= start -> 0 < limit ->
  let response := run (getCampgrounds services parkCode limit start) in
  (parkById services parkCode = Returned None ->
   response =
     (Returned (Message ("No park found with code: " ++ parkCode)),
      [ParkById parkCode])) /\
  (forall park,
     parkById services parkCode = Returned (Some park) ->
     (JSArray.length all <= start ->
      response =
        (Returned (Message ("No campgrounds found in " ++ park_name park ++
                            " (Park Code: " ++ parkCode ++ ").")),
         [ParkById parkCode; CampgroundsByPark parkCode])) /\
     (start < JSArray.length all ->
      exists page,
        response =
          (Returned (Report page),
           [ParkById parkCode; CampgroundsByPark parkCode]) /\
        campgrounds page =
          firstn (Z.to_nat limit) (skipn (Z.to_nat start) all) /\
        totalCount page = JSArray.length all /\
        (forall index c,
           nth_error (campgrounds page) index = Some c ->
           nth_error all
             (Z.to_nat (campgroundNumber page (Z.of_nat index) - 1)) =
             Some c) /\
        (moreCampgroundsStart page = Some (start + limit) <->
         start + limit < JSArray.length all) /\
        (moreCampgroundsStart page = None <->
         JSArray.length all <= start + limit))).
Proof.
  intros Hall Hs Hl. cbv zeta. rewrite getCampgrounds_run, Hall.
  rewrite slice_from by lia.
  split; [intros ->; reflexivity|].
  intros park ->. split.
  - intros Hout. rewrite skipn_all2 by (unfold JSArray.length in Hout; lia).
    rewrite firstn_nil. reflexivity.
  - intros Hin.
    destruct (firstn _ _) as [|c cs] eqn:P.
    + exfalso. apply (f_equal (@List.length _)) in P.
      rewrite length_firstn, length_skipn in P.
      unfold JSArray.length in Hin. cbn in P. lia.
    + eexists. split; [reflexivity|].
      cbn [campgrounds totalCount]. split; [reflexivity|].
      split; [reflexivity|]. split; [|split].
      * intros index item H. rewrite <- P in H.
        rewrite nth_error_firstn in H.
        destruct (Nat.ltb index (Z.to_nat limit)); [|discriminate].
        rewrite nth_error_skipn in H.
        unfold campgroundNumber. cbn [cp_start].
        replace (Z.to_nat (Z.of_nat index + 1 + start - 1))
          with (Z.to_nat start + index)%nat by lia.
        exact H.
      * unfold moreCampgroundsStart. cbn [cp_start cp_limit totalCount].
        destruct (start + limit <? JSArray.length all) eqn:E;
          [apply Z.ltb_lt in E | apply Z.ltb_ge in E];
          split; intros H; try discriminate; try reflexivity; lia.
      * unfold moreCampgroundsStart. cbn [cp_start cp_limit totalCount].
        destruct (start + limit <? JSArray.length all) eqn:E;
          [apply Z.ltb_lt in E | apply Z.ltb_ge in E];
          split; intros H; try discriminate; try reflexivity; lia.
Qed.

(** Three campgrounds in pages of two: the second page holds the third
    campground, and nothing past the end is found. *)
Lemma campgrounds_are_paged_by_position_witness :
  run (getCampgrounds yosemite_services "yose" 2 3) =
    (Returned (Message "No campgrounds found in yose (Park Code: yose)."),
     [ParkById "yose"; CampgroundsByPark "yose"]).
Proof.
  refine (proj1 (proj2 (campgrounds_are_paged_by_position yosemite_services
                          "yose" 2 3 three_campgrounds eq_refl _ _)
                   (park_of_code "yose") eq_refl) _);
    cbn; lia.
Defined.

(** *** The activity lines of getParkInfo *)

Lemma activity_loop_groups (activities : list Activity) (fuel : nat) (i : Z)
    (acc : list string) :
  0 <= i ->
  JSArray.length activities - i <= Z.of_nat fuel ->
  exists groups : list (list Activity),
    activity_loop fuel activities i acc = (acc ++ map line_of groups)%list /\
    List.concat groups = skipn (Z.to_nat i) activities /\
    Forall (fun g => (1 <= List.length g <= 5)%nat) groups /\
    (forall before g after,
       groups = (before ++ g :: after)%list -> after <> [] ->
       List.length g = 5%nat) /\
    Z.of_nat (List.length groups) =
      (Z.max (JSArray.length activities - i) 0 + 4) / 5.
Proof.
  assert (Done : forall j out,
            0 <= j -> JSArray.length activities <= j ->
            exists groups : list (list Activity),
              out = (out ++ map line_of groups)%list /\
              List.concat groups = skipn (Z.to_nat j) activities /\
              Forall (fun g => (1 <= List.length g <= 5)%nat) groups /\
              (forall before g after,
                 groups = (before ++ g :: after)%list -> after <> [] ->
                 List.length g = 5%nat) /\
              Z.of_nat (List.length groups) =
                (Z.max (JSArray.length activities - j) 0 + 4) / 5).
  { intros j out Hj Hout. exists [].
    cbn [map List.concat]. rewrite app_nil_r.
    split; [reflexivity|]. split.
    - symmetry. apply skipn_all2. unfold JSArray.length in Hout. lia.
    - split; [constructor|]. split.
      + intros before g after H. destruct before; discriminate.
      + replace (Z.max _ 0) with 0 by lia. reflexivity. }
  intros Hi0 Hf0. revert i acc Hi0 Hf0.
  induction fuel as [|fuel IH]; intros i acc Hi Hf.
  - cbn [activity_loop]. apply Done; [exact Hi | lia].
  - cbn [activity_loop].
    destruct (i <? JSArray.length activities) eqn:E;
      [apply Z.ltb_lt in E | apply Z.ltb_ge in E; apply Done; assumption].
    rewrite slice_from by lia. change (Z.to_nat 5) with 5%nat.
    set (here := skipn (Z.to_nat i) activities).
    fold (line_of (firstn 5 here)).
    destruct (IH (i + 5) (acc ++ [line_of (firstn 5 here)])%list)
      as [groups [Hrun [Hcat [Hlen [Hfull Hcount]]]]]; [lia | lia |].
    assert (Hhere : Z.of_nat (List.length here) =
                    JSArray.length activities - i).
    { unfold here, JSArray.length. rewrite length_skipn.
      unfold JSArray.length in E. lia. }
    assert (Hnext : skipn (Z.to_nat (i + 5)) activities = skipn 5 here).
    { unfold here. rewrite skipn_skipn. f_equal. lia. }
    exists (firstn 5 here :: groups).
    split; [|split; [|split; [|split]]].
    + rewrite Hrun, <- app_assoc. reflexivity.
    + cbn [List.concat]. rewrite Hcat, Hnext. apply firstn_skipn.
    + constructor; [|exact Hlen]. cbv beta. rewrite length_firstn. lia.
    + intros before g after H Hafter.
      pose proof (length_firstn 5 here) as Hfirst.
      remember (firstn 5 here) as first eqn:Efirst. clear Efirst.
      destruct before as [|b before]; cbn [app] in H.
      * injection H as Hg Hgroups. subst g groups. rewrite Hfirst.
        destruct after as [|g' after']; [congruence|].
        apply Forall_inv in Hlen.
        assert (L : (1 <= List.length (skipn 5 here))%nat).
        { rewrite <- Hnext, <- Hcat. cbn [List.concat].
          rewrite length_app. lia. }
        rewrite length_skipn in L. lia.
      * injection H as _ H. apply (Hfull before g after H Hafter).
    + cbn [List.length]. rewrite Nat2Z.inj_succ, Hcount.
      unfold JSArray.length in *.
      Z.div_mod_to_equations. lia.
Qed.

(** X17.  [getParkInfo] lists a park's activities five to a line: the
    lines are the names, joined by ", ", of consecutive groups that
    together are all the activities, each once and in order; every group
    but the last has five activities and the last has from one to five; a
    park with [n] activities gets [n / 5] lines, rounded up. *)
Theorem activities_are_listed_five_to_a_line (activities : list Activity) :
  exists groups : list (list Activity),
    activityGroups activities = map line_of groups /\
    List.concat groups = activities /\
    Forall (fun g => (1 <= List.length g <= 5)%nat) groups /\
    (forall before g after,
       groups = (before ++ g :: after)%list -> after <> [] ->
       List.length g = 5%nat) /\
    JSArray.length (activityGroups activities) =
      (JSArray.length activities + 4) / 5.
Proof.
  unfold activityGroups.
  destruct (activity_loop_groups activities (List.length activities) 0 [])
    as [groups [H1 [H2 [H3 [H4 H5]]]]];
    [lia | unfold JSArray.length; lia |].
  exists groups. cbn [app] in H1. cbn [Z.to_nat skipn] in H2.
  split; [exact H1|]. split; [exact H2|]. split; [exact H3|].
  split; [exact H4|].
  rewrite H1. unfold JSArray.length in *. rewrite length_map, H5.
  f_equal. lia.
Qed.

End ParkToolsMore.

(* ===================================================================== *)
(** ** The sections of getParkInfo and the park weather forecast *)
(* ===================================================================== *)

Module ParkInfoMore.
Import JSString ParkTools WeatherTools Examples MoreExamples ParkExamples.

(** *** getParkWeatherForecast *)

(** X18.  [getParkWeatherForecast] never throws.  An unknown park code is
    answered after the one lookup, without a forecast request.  For a known
    park the forecast is asked for by the park's name, not by its code; a
    forecast that is missing or has no days gets the answer "Found park
    ..., but could not retrieve weather forecast.", a forecast with a day
    is reported whole, and a failing forecast provider gets the error text.
    So a report never has an empty list of days. *)
Theorem park_forecast_is_asked_by_park_name
    (npsService : NpsApiService) (weatherService : WeatherApiService)
    (parkCode : string) :
  let response :=
    Task.run (getParkWeatherForecast npsService weatherService parkCode) in
  (exists answer, fst response = Returned answer) /\
  (getParkById npsService parkCode = Returned None ->
   response =
     (Returned (Message ("Could not find park with code: " ++ parkCode)),
      [GetParkById parkCode])) /\
  (forall park,
     getParkById npsService parkCode = Returned (Some park) ->
     snd response =
       [GetParkById parkCode; Get7DayForecastByLocation (park_name park)] /\
     (forall forecast,
        get7DayForecastByLocation weatherService (park_name park) =
          Returned forecast ->
        (forecast = None \/ forecast = Some []) ->
        fst response =
          Returned (Message ("Found park " ++ park_name park ++
                             ", but could not retrieve weather forecast."))) /\
     (forall days,
        get7DayForecastByLocation weatherService (park_name park) =
          Returned (Some days) ->
        days <> [] ->
        fst response =
          Returned (Report {| pf_park := park; pf_days := days |})) /\
     (forall e,
        get7DayForecastByLocation weatherService (park_name park) =
          Thrown e ->
        fst response =
          Returned (Message ("Error retrieving park weather forecast: "
                             ++ message e)))) /\
  (forall report, fst response = Returned (Report report) ->
                  pf_days report <> []).
Proof.
  cbv zeta.
  unfold Task.run, getParkWeatherForecast, Task.try_catch, Task.bind,
    Task.await, Task.ret.
  destruct (getParkById npsService parkCode) as [[park|]|e0]; cbn [app].
  - destruct (get7DayForecastByLocation weatherService (park_name park))
      as [[[|day days]|]|e] eqn:F; cbn [fst snd].
    + split; [eauto|]. split; [discriminate|]. split; [|discriminate].
      intros p [= <-]. rewrite F. split; [reflexivity|].
      split; [reflexivity|]. split; [|discriminate].
      intros days [= <-] H. congruence.
    + split; [eauto|]. split; [discriminate|]. split.
      * intros p [= <-]. rewrite F. split; [reflexivity|].
        split; [intros forecast [= <-] [H|H]; discriminate|].
        split; [|discriminate]. intros ds [= <-] _. reflexivity.
      * intros report [= <-]. discriminate.
    + split; [eauto|]. split; [discriminate|]. split; [|discriminate].
      intros p [= <-]. rewrite F. split; [reflexivity|].
      split; [reflexivity|]. split; discriminate.
    + split; [eauto|]. split; [discriminate|]. split; [|discriminate].
      intros p [= <-]. rewrite F. split; [reflexivity|].
      split; [discriminate|]. split; [discriminate|].
      intros e' [= <-]. reflexivity.
  - cbn [fst snd]. split; [eauto|]. split; [reflexivity|].
    split; discriminate.
  - cbn [fst snd]. split; [eauto|]. split; [discriminate|].
    split; discriminate.
Qed.

Example park_forecast_of_yosemite :
  Task.run (getParkWeatherForecast nps weather "yose") =
    (Returned (Message
       "Found park yose, but could not retrieve weather forecast."),
     [GetParkById "yose"; Get7DayForecastByLocation "yose"]).
Proof. reflexivity. Qed.

(** *** getParkInfo *)

Section ParkInfo.
Variable services : ParkServices.
Variable parkCode : string.
Variables includeBasics includeAlerts includeWeather includeEvents
  includeCamping includeImages : bool.

Local Abbreviation handler :=
  (getParkInfo services parkCode includeBasics includeAlerts includeWeather
     includeEvents includeCamping includeImages).

(** The calls of the sections asked for, in the handler's order. *)
Local Abbreviation section_calls park :=
  ((if includeAlerts then [AlertsByPark parkCode] else []) ++
   (if includeWeather then [ForecastByLocation (park_name park)] else []) ++
   (if includeEvents
    then [EventsByPark parkCode (isoDate services 0) (isoDate services 14)]
    else []) ++
   (if includeCamping then [CampgroundsByPark parkCode] else []))%list.

(** X19.  [getParkInfo] calls the provider of a section exactly when the
    section is included, in the order alerts, weather, events, camping and
    after the park lookup; the weather is asked for by the park's name and
    the events for the fourteen days from today.  When the providers of the
    included sections answer, the report holds what each one answered and
    nothing for a section left out: the provider of a section that is left
    out plays no part, failing or not. *)
Theorem park_info_asks_only_for_included_sections (park : Park) :
  parkById services parkCode = Returned (Some park) ->
  (includeAlerts = true ->
   exists alerts, alertsByPark services parkCode = Returned alerts) ->
  (includeWeather = true ->
   exists forecast,
     forecastByLocation services (park_name park) = Returned forecast) ->
  (includeEvents = true ->
   exists events,
     eventsByPark services parkCode (isoDate services 0)
       (isoDate services 14) = Returned events) ->
  (includeCamping = true ->
   exists campgrounds,
     campgroundsByPark services parkCode = Returned campgrounds) ->
  exists info,
    run handler =
      (Returned (Report info), ParkById parkCode :: section_calls park) /\
    pi_park info = park /\
    pi_basics info = includeBasics /\
    pi_images info = includeImages /\
    (if includeAlerts
     then exists alerts,
            alertsByPark services parkCode = Returned alerts /\
            pi_alerts info = Some alerts
     else pi_alerts info = None) /\
    (if includeWeather
     then exists forecast,
            forecastByLocation services (park_name park) =
              Returned forecast /\
            pi_forecast info = Some forecast
     else pi_forecast info = None) /\
    (if includeEvents
     then exists events,
            eventsByPark services parkCode (isoDate services 0)
              (isoDate services 14) = Returned events /\
            pi_events info = Some events
     else pi_events info = None) /\
    (if includeCamping
     then exists campgrounds,
            campgroundsByPark services parkCode = Returned campgrounds /\
            pi_campgrounds info = Some campgrounds
     else pi_campgrounds info = None).
Proof.
  intros Hp Ha Hw He Hc.
  unfold run, getParkInfo, try_catch, bind, await, ret, when_included.
  rewrite Hp. cbn [app].
  destruct includeAlerts;
    [destruct (Ha eq_refl) as [alerts Ea]; rewrite Ea|]; cbn [app];
  (destruct includeWeather;
    [destruct (Hw eq_refl) as [forecast Ew]; rewrite Ew|]; cbn [app];
   (destruct includeEvents;
     [destruct (He eq_refl) as [events Ee]; rewrite Ee|]; cbn [app];
    (destruct includeCamping;
      [destruct (Hc eq_refl) as [campgrounds Ec]; rewrite Ec|]; cbn [app];
     (eexists; split; [reflexivity|];
      cbn [pi_park pi_basics pi_images pi_alerts pi_forecast pi_events
           pi_campgrounds];
      repeat match goal with
             | |- _ /\ _ => split
             | |- exists _, _ => eexists
             end;
      solve [reflexivity | eassumption])))).
Qed.

(** X20.  [getParkInfo] gives up as a whole at the first failure.  An
    unknown park code is answered after the one lookup, whatever is
    included.  When the alerts are included and their provider throws, the
    answer is the error text and no later section is asked for.  When the
    camping section, the last one, is included and its provider throws,
    the answer is the error text alone although every section before it
    was fetched. *)
Theorem park_info_stops_at_the_first_failure :
  (parkById services parkCode = Returned None ->
   run handler =
     (Returned (Message ("Could not find park with code: " ++ parkCode)),
      [ParkById parkCode])) /\
  (forall park e,
     parkById services parkCode = Returned (Some park) ->
     includeAlerts = true ->
     alertsByPark services parkCode = Thrown e ->
     run handler =
       (Returned (Message ("Error retrieving park information: "
                           ++ message e)),
        [ParkById parkCode; AlertsByPark parkCode])) /\
  (forall park e alerts forecast events,
     parkById services parkCode = Returned (Some park) ->
     alertsByPark services parkCode = Returned alerts ->
     forecastByLocation services (park_name park) = Returned forecast ->
     eventsByPark services parkCode (isoDate services 0)
       (isoDate services 14) = Returned events ->
     includeCamping = true ->
     campgroundsByPark services parkCode = Thrown e ->
     run handler =
       (Returned (Message ("Error retrieving park information: "
                           ++ message e)),
        ParkById parkCode :: section_calls park)).
Proof.
  unfold run, getParkInfo, try_catch, bind, await, ret, when_included.
  split; [|split].
  - intros ->. reflexivity.
  - intros park e -> -> ->. reflexivity.
  - intros park e alerts forecast events -> -> -> -> -> ->.
    destruct includeAlerts, includeWeather, includeEvents; reflexivity.
Qed.

End ParkInfo.

(** Everything about Yosemite but the alerts, whose provider is down. *)
Lemma park_info_asks_only_for_included_sections_witness :
  exists info,
    run (getParkInfo services_without_alerts "yose"
           true false true true true true) =
      (Returned (Report info),
       [ParkById "yose"; ForecastByLocation "yose";
        EventsByPark "yose" "2025-06-01" "2025-06-15";
        CampgroundsByPark "yose"]) /\
    pi_alerts info = None /\
    pi_campgrounds info = Some three_campgrounds.
Proof.
  destruct (park_info_asks_only_for_included_sections
              services_without_alerts "yose" true false true true true true
              (park_of_code "yose") eq_refl)
    as [info [H1 [_ [_ [_ [H2 [_ [_ [campgrounds [H3 H4]]]]]]]]]].
  - discriminate.
  - intros _. eexists. reflexivity.
  - intros _. eexists. reflexivity.
  - intros _. eexists. reflexivity.
  - exists info. split; [exact H1|]. split; [exact H2|].
    rewrite H4. f_equal. injection H3 as <-. reflexivity.
Defined.

(** The same request with the alerts included. *)
Lemma park_info_stops_at_the_first_failure_witness :
  run (getParkInfo services_without_alerts "yose"
         true true true true true true) =
    (Returned (Message
       "Error retrieving park information: alerts unavailable"),
     [ParkById "yose"; AlertsByPark "yose"]).
Proof.
  exact (proj1 (proj2 (park_info_stops_at_the_first_failure
                         services_without_alerts "yose"
                         true true true true true true))
           (park_of_code "yose") {| message := "alerts unavailable" |}
           eq_refl eq_refl eq_refl).
Defined.

End ParkInfoMore.
